(** * scraper.py: most-active NSE/BSE stocks mailer

    A shallow embedding of [src/scraper.py] and the properties of its
    market-hours gate, fetch/retry loop, ranker, renderer, mail dispatcher
    and orchestration.

    Conventions of the embedding:
    - values decoded from JSON are the inductive [json]; a Python [dict]
      is a [gmap string json], a Python [float] a [spec_float];
    - Python [str] is [string] (its UTF-8 bytes);
    - code that can raise returns [result]; code with effects returns the
      list of [event]s it performed, in order;
    - behaviour of the outside world (clock, HTTP server, SMTP relay) is an
      explicit argument. *)

From Stdlib Require Import ZArith QArith String Ascii List DecimalString Sorted Permutation Lia.
From Stdlib Require Import Floats.SpecFloat.
From stdpp Require Import base option list strings gmap.

Set Warnings "-register-all".
Set Default Proof Using "Type".

Local Open Scope Z_scope.

(** ** Exceptions and results *)

Inductive exn : Type :=
| AttributeError
| TypeError
| ValueError
| OverflowError
| IndexError
| KeyError
| RuntimeError (msg : string)
| OtherError (what : string).

Inductive result (A : Type) : Type :=
| Ok (a : A)
| Raise (e : exn).

Arguments Ok {A} a.
Arguments Raise {A} e.

Global Instance result_ret : MRet result := λ A a, Ok a.
Global Instance result_bind : MBind result :=
  λ A B f m, match m with Ok a => f a | Raise e => Raise e end.

Global Instance result_fmap : FMap result :=
  λ A B f m, match m with Ok a => Ok (f a) | Raise e => Raise e end.

Definition is_Ok {A} (r : result A) : Prop := ∃ a, r = Ok a.

(** ** JSON values as Python objects *)

Inductive json : Type :=
| JNull
| JBool (b : bool)
| JInt (z : Z)
| JFloat (f : spec_float)
| JStr (s : string)
| JList (l : list json)
| JObj (m : gmap string json).

(** Python truth value of a decoded JSON value ([bool(v)]). *)
Definition truthy (v : json) : bool :=
  match v with
  | JNull => false
  | JBool b => b
  | JInt z => negb (z =? 0)
  | JFloat f => match f with S754_zero _ => false | _ => true end
  | JStr s => match s with EmptyString => false | _ => true end
  | JList l => match l with [] => false | _ => true end
  | JObj m => negb (bool_decide (m = ∅))
  end.

(** [a or b] *)
Definition py_or (a b : json) : json := if truthy a then a else b.

(** [v.get(k, dflt)]: only a dict has [.get]. *)
Definition py_get (v : json) (k : string) (dflt : json) : result json :=
  match v with
  | JObj m => Ok (default dflt (m !! k))
  | _ => Raise AttributeError
  end.

(** [v[0]]; of a string only the fact that it is again a string matters
    to the caller. *)
Definition py_getitem0 (v : json) : result json :=
  match v with
  | JList (x :: _) => Ok x
  | JList [] => Raise IndexError
  | JStr (String c _) => Ok (JStr (String c EmptyString))
  | JStr EmptyString => Raise IndexError
  | JObj _ => Raise KeyError
  | _ => Raise TypeError
  end.

(** [isinstance(v, (int, float))]; [bool] is a subclass of [int]. *)
Definition is_int_or_float (v : json) : bool :=
  match v with
  | JBool _ | JInt _ | JFloat _ => true
  | _ => false
  end.

(** [int(f)] for a float: truncation toward zero; NaN and the infinities
    raise. *)
Definition int_of_float (f : spec_float) : result Z :=
  match f with
  | S754_zero _ => Ok 0
  | S754_infinity _ => Raise OverflowError
  | S754_nan => Raise ValueError
  | S754_finite s m e =>
      let mag := Z.shiftl (Z.pos m) e in
      Ok (if s then - mag else mag)
  end.

(** [int(v)] for [v] an int, bool or float. *)
Definition py_int (v : json) : result Z :=
  match v with
  | JBool b => Ok (if b then 1 else 0)
  | JInt z => Ok z
  | JFloat f => int_of_float f
  | _ => Raise TypeError
  end.

(** [s.endswith(suffix)] *)
Definition endswith (s suffix : string) : bool :=
  let n := String.length s in
  let k := String.length suffix in
  (k <=? n)%nat && String.eqb (substring (n - k) k s) suffix.

(** [l[:n]] for a Python int [n]: a negative [n] counts from the end. *)
Definition py_slice_to {A} (l : list A) (n : Z) : list A :=
  if 0 <=? n then take (Z.to_nat n) l
  else take (length l - Z.to_nat (- n)) l.

(** [range(lo, hi)] *)
Definition py_range (lo hi : Z) : list Z :=
  map (λ i, lo + Z.of_nat i) (seq 0 (Z.to_nat (hi - lo))).

(** [l.sort(key=key, reverse=True)]: the library sort is stable, and with
    [reverse=True] elements with equal keys still keep their original
    order. Modelled as a stable insertion sort, descending by key. *)
Section Sort.
Context {A : Type} (key : A → Z).

Fixpoint insert_desc (x : A) (l : list A) : list A :=
  match l with
  | [] => [x]
  | y :: l' => if key x <? key y then y :: insert_desc x l' else x :: y :: l'
  end.

Fixpoint sort_key_reverse (l : list A) : list A :=
  match l with
  | [] => []
  | x :: l' => insert_desc x (sort_key_reverse l')
  end.
End Sort.

(** ** Ranker: [select_top_by_exchange] *)

Record row : Type := mk_row {
  r_symbol : string;
  r_name : json;
  r_volume : Z;
  r_price : json;       (* [JNull] is Python's [None] *)
  r_change : json;
  r_change_pct : json
}.

(** [x if isinstance(x, (int, float)) else None] *)
Definition number_or_none (x : json) : json :=
  if is_int_or_float x then x else JNull.

(** Lines 83 and 91: the volume of a quote [q] (a dict). *)
Definition compute_volume (q : gmap string json) : result Z :=
  let vol := py_or (py_or (default JNull (q !! "regularMarketVolume"))
                          (default JNull (q !! "averageDailyVolume3Month")))
                   (JInt 0) in
  if is_int_or_float vol then py_int vol else Ok 0.

(** The symbol the loop works with (line 80): [q.get("symbol") or ""]. *)
Definition symbol_of (q : json) : result json :=
  s ← py_get q "symbol" JNull; Ok (py_or s (JStr "")).

(** One iteration of the loop (lines 80-95): [None] is [continue],
    [Some r] is [rows.append(r)]. *)
Definition row_of_quote (q : json) (suffix : string) : result (option row) :=
  sym ← symbol_of q;
  match sym, q with
  | JStr sym, JObj d =>
      if negb (endswith sym suffix) then Ok None
      else
        vol ← compute_volume d;
        let name := py_or (py_or (default JNull (d !! "shortName"))
                                 (default JNull (d !! "longName")))
                          (JStr sym) in
        let price := default JNull (d !! "regularMarketPrice") in
        let chg := default JNull (d !! "regularMarketChange") in
        let chg_pct := default JNull (d !! "regularMarketChangePercent") in
        Ok (Some {| r_symbol := sym;
                    r_name := name;
                    r_volume := vol;
                    r_price := number_or_none price;
                    r_change := number_or_none chg;
                    r_change_pct := number_or_none chg_pct |})
  | _, _ => Raise AttributeError     (* [sym.endswith] on a non-string *)
  end.

(** The loop of lines 78-95: the rows in input order. *)
Fixpoint collect_rows (quotes : list json) (suffix : string) : result (list row) :=
  match quotes with
  | [] => Ok []
  | q :: rest =>
      o ← row_of_quote q suffix;
      rows ← collect_rows rest suffix;
      Ok (match o with Some r => r :: rows | None => rows end)
  end.

Definition select_top_by_exchange (quotes : list json) (suffix : string) (top_n : Z)
  : result (list row) :=
  rows ← collect_rows quotes suffix;
  Ok (py_slice_to (sort_key_reverse r_volume rows) top_n).


(** ** Clock and calendar gate *)

(** [datetime.time]: compared as the tuple (hour, minute, second,
    microsecond). *)
Record dtime : Type := mk_dtime {
  hour : Z;
  minute : Z;
  second : Z;
  microsecond : Z
}.

(** [dtime(h, m)] *)
Definition dtime_hm (h m : Z) : dtime :=
  {| hour := h; minute := m; second := 0; microsecond := 0 |}.

Definition time_cmp (a b : dtime) : comparison :=
  match hour a ?= hour b with
  | Eq => match minute a ?= minute b with
          | Eq => match second a ?= second b with
                  | Eq => microsecond a ?= microsecond b
                  | c => c
                  end
          | c => c
          end
  | c => c
  end.

(** [a <= b] and [a >= b] on times *)
Definition time_le (a b : dtime) : bool :=
  match time_cmp a b with Gt => false | _ => true end.
Definition time_ge (a b : dtime) : bool :=
  match time_cmp a b with Lt => false | _ => true end.

(** A naive [datetime]: the date as its proleptic Gregorian ordinal
    ([toordinal()], day 1 is 0001-01-01) and the time of day. *)
Record datetime : Type := mk_datetime {
  ordinal : Z;
  dt_time : dtime
}.

Definition MAXORDINAL : Z := 3652059.   (* 9999-12-31 *)

(** [dt.weekday()]: Monday is 0, Sunday is 6. *)
Definition weekday (dt : datetime) : Z := (ordinal dt + 6) mod 7.

Definition US_PER_DAY : Z := 86400 * 1000000.

Definition us_of_time (t : dtime) : Z :=
  ((hour t * 60 + minute t) * 60 + second t) * 1000000 + microsecond t.

Definition time_of_us (us : Z) : dtime :=
  let secs := us / 1000000 in
  {| hour := secs / 3600;
     minute := (secs mod 3600) / 60;
     second := secs mod 60;
     microsecond := us mod 1000000 |}.

(** [timedelta(hours=h, minutes=m)], as its number of microseconds. *)
Definition timedelta (hours minutes : Z) : Z :=
  (hours * 3600 + minutes * 60) * 1000000.

(** [dt + delta]: raises when the date leaves 0001-01-01 .. 9999-12-31. *)
Definition datetime_add (dt : datetime) (delta : Z) : result datetime :=
  let total := ordinal dt * US_PER_DAY + us_of_time (dt_time dt) + delta in
  let days := total / US_PER_DAY in
  if (0 <? days) && (days <=? MAXORDINAL)
  then Ok {| ordinal := days; dt_time := time_of_us (total mod US_PER_DAY) |}
  else Raise OverflowError.

(** Days before year [y], before month [m] of year [y], and the ordinal of
    a calendar date, as [datetime] computes them; used to name concrete
    dates. *)
Definition is_leap (y : Z) : bool :=
  (y mod 4 =? 0) && (negb (y mod 100 =? 0) || (y mod 400 =? 0)).

Definition days_before_year (y : Z) : Z :=
  let y' := y - 1 in y' * 365 + y' / 4 - y' / 100 + y' / 400.

Definition days_in_month (y m : Z) : Z :=
  if m =? 2 then (if is_leap y then 29 else 28)
  else if (m =? 4) || (m =? 6) || (m =? 9) || (m =? 11) then 30 else 31.

Definition days_before_month (y m : Z) : Z :=
  fold_right Z.add 0 (map (days_in_month y) (py_range 1 m)).

Definition ymd2ord (y m d : Z) : Z :=
  days_before_year y + days_before_month y m + d.

(** [datetime(y, m, d, hh, mm, ss, us)] *)
Definition datetime_of (y m d hh mm ss us : Z) : datetime :=
  {| ordinal := ymd2ord y m d;
     dt_time := {| hour := hh; minute := mm; second := ss; microsecond := us |} |}.

(** [now_ist_dt()], given the reading [utcnow] of the clock. *)
Definition now_ist_dt (utcnow : datetime) : result datetime :=
  datetime_add utcnow (timedelta 5 30).

(** Lines 44-47: the gate on a given local time. *)
Definition market_open (dt : datetime) : bool :=
  if 5 <=? weekday dt then false
  else
    let t := dt_time dt in
    time_ge t (dtime_hm 9 15) && time_le t (dtime_hm 15 30).

(** [is_market_open_ist(dt=None)] *)
Definition is_market_open_ist (utcnow : datetime) (dt : option datetime) : result bool :=
  dt ← match dt with
       | None => now_ist_dt utcnow
       | Some d => Ok d
       end;
  Ok (market_open dt).

(** ** Effects: the trace of a run *)

Inductive level : Type := INFO | WARNING | ERROR.

Inductive event : Type :=
| EvLog (lvl : level) (fmt : string)        (* a [logging] call, by its format string *)
| EvPost (url : string) (size timeout : Z)  (* [requests.post] *)
| EvSleep (seconds : Q)                     (* [time.sleep] *)
| EvRender                                  (* call of [build_email_html] *)
| EvSmtpConnect (host : string) (port : Z)  (* [smtplib.SMTP(host, port)] *)
| EvStartTls
| EvLogin (user pass : string)
| EvSendmail (from_addr : string) (to_addrs : list string) (subject body : string)
| EvSmtpQuit.

(** A computation that may raise and that performs events: the outcome
    and the events performed up to it. *)
Definition M (A : Type) : Type := result A * list event.

Definition m_ret {A} (a : A) : M A := (Ok a, []).
Definition m_bind {A B} (m : M A) (f : A → M B) : M B :=
  match m with
  | (Ok a, tr) => let '(r, tr') := f a in (r, tr ++ tr')
  | (Raise e, tr) => (Raise e, tr)
  end.
Definition emit (ev : event) : M unit := (Ok tt, [ev]).
Definition lift {A} (r : result A) : M A := (r, []).

Notation "x <- m ;; k" := (m_bind m (λ x, k))
  (at level 100, m at next level, right associativity, only parsing).
Notation "m ;;; k" := (m_bind m (λ _, k))
  (at level 100, right associativity, only parsing).

(** ** Quote fetcher *)

(** What one [requests.post] does: it raises, or it answers with a status,
    a text and a body that [resp.json()] decodes or fails to decode. *)
Inductive http_outcome : Type :=
| Transport_error
| Response (status_code : Z) (text : string) (body : result json).

Definition SCREENER_URL : string :=
  "https://query1.finance.yahoo.com/v1/finance/screener".

(** Line 70 *)
Definition extract_quotes (data : json) : result json :=
  fin ← py_get data "finance" (JObj ∅);
  res ← py_get fin "result" (JList [JObj ∅]);
  first ← py_getitem0 res;
  quotes ← py_get first "quotes" (JList []);
  Ok (py_or quotes (JList [])).

(** The [try] block of one attempt (lines 66-73): [Some quotes] when it
    returns, [None] when control falls through to the sleep, together
    with what it logged. *)
Definition try_attempt (o : http_outcome) : option json * list event :=
  match o with
  | Transport_error =>
      (None, [EvLog ERROR "Yahoo Screener attempt %d failed: %s"])
  | Response status_code text body =>
      if status_code =? 200 then
        match data ← body; extract_quotes data with
        | Ok quotes => (Some quotes, [])
        | Raise _ => (None, [EvLog ERROR "Yahoo Screener attempt %d failed: %s"])
        end
      else (None, [EvLog WARNING "Yahoo Screener HTTP %s: %s"])
  end.

(** The [for] loop of lines 65-75 over the attempt numbers still to run. *)
Fixpoint fetch_loop (server : Z → http_outcome) (size timeout : Z)
    (attempts : list Z) : json * list event :=
  match attempts with
  | [] => (JList [], [])
  | attempt :: rest =>
      match try_attempt (server attempt) with
      | (Some quotes, logs) => (quotes, EvPost SCREENER_URL size timeout :: logs)
      | (None, logs) =>
          let '(r, tr) := fetch_loop server size timeout rest in
          (r, EvPost SCREENER_URL size timeout :: logs
                ++ EvSleep ((3 # 2) * inject_Z attempt)%Q :: tr)
      end
  end.

(** [server n] is the outcome of the [n]-th attempt. *)
Definition yahoo_screener_most_active_india (server : Z → http_outcome)
    (size retries timeout : Z) : json * list event :=
  fetch_loop server size timeout (py_range 1 (retries + 1)).

(** ** Report renderer *)

(** Library functions the program calls on values whose text form is not
    modelled here: [format(v, ".2f")] (it raises on an int too large for
    a float), [str(v)] of a value that is not a string, and
    [dt.strftime("%Y-%m-%d %H:%M")]. *)
Record pylib : Type := mk_pylib {
  format_2f : json → result string;
  py_str : json → string;
  strftime : datetime → string
}.

(** [str(z)] for an int *)
Definition str_of_Z (z : Z) : string := NilZero.string_of_int (Z.to_int z).

(** A comma after every third digit, on the digits in reverse order. *)
Fixpoint group3 (ds : list ascii) : list ascii :=
  match ds with
  | a :: b :: c :: ((_ :: _) as rest) => a :: b :: c :: ","%char :: group3 rest
  | _ => ds
  end.

(** [format(z, ",")] for an int: thousands separators. *)
Definition format_thousands (z : Z) : string :=
  let digits := list_ascii_of_string (str_of_Z (Z.abs z)) in
  let grouped := string_of_list_ascii (rev (group3 (rev digits))) in
  if z <? 0 then "-" +:+ grouped else grouped.

(** [f"{v}"] *)
Definition format_value (lib : pylib) (v : json) : string :=
  match v with
  | JStr s => s
  | _ => py_str lib v
  end.

(** [f'{v:.2f}' if v is not None else "-"] *)
Definition cell_2f (lib : pylib) (v : json) : result string :=
  match v with
  | JNull => Ok "-"
  | _ => format_2f lib v
  end.

Definition TABLE_HEAD : string :=
  "<tr><th>#</th><th>Symbol</th><th>Name</th><th>Price</th><th>Δ</th><th>Δ%</th><th>Volume</th></tr>".

(** Lines 106-112: the text appended to [body] for row [r] numbered [i]. *)
Definition tbl_row (lib : pylib) (i : Z) (r : row) : result string :=
  price ← cell_2f lib (r_price r);
  chg ← cell_2f lib (r_change r);
  chg_pct ← cell_2f lib (r_change_pct r);
  Ok ("<tr><td>" +:+ str_of_Z i +:+ "</td><td>" +:+ r_symbol r +:+ "</td><td>"
      +:+ format_value lib (r_name r) +:+ "</td>"
      +:+ "<td>" +:+ price +:+ "</td><td>" +:+ chg +:+ "</td><td>" +:+ chg_pct
      +:+ "</td><td>" +:+ format_thousands (r_volume r) +:+ "</td></tr>").

(** The loop of lines 105-112: [i] is the number of the next row,
    [body] the text built so far. *)
Fixpoint tbl_loop (lib : pylib) (i : Z) (rows : list row) (body : string) : result string :=
  match rows with
  | [] => Ok body
  | r :: rest =>
      line ← tbl_row lib i r;
      tbl_loop lib (i + 1) rest (body +:+ line)
  end.

(** The inner function [tbl(rows, title)] *)
Definition tbl (lib : pylib) (rows : list row) (title : string) : result string :=
  match rows with
  | [] => Ok ("<p>No data for " +:+ title +:+ ".</p>")
  | _ =>
      body ← tbl_loop lib 1 rows "";
      Ok ("<h3>" +:+ title +:+ "</h3><table border='1' cellspacing='0' cellpadding='6'>"
          +:+ TABLE_HEAD +:+ body +:+ "</table>")
  end.

Definition nl : string := String "010"%char EmptyString.
Definition dq : string := String "034"%char EmptyString.

(** The document around the two tables (lines 114-124), with the two
    rendered tables [nse_tbl] and [bse_tbl] in their places. *)
Definition email_frame (ist_time_str : string) (nse_len : nat) (nse_tbl : string)
    (bse_len : nat) (bse_tbl : string) : string :=
  nl +:+ "    <html><body>" +:+ nl
  +:+ "      <p><strong>Top " +:+ str_of_Z (Z.of_nat nse_len)
  +:+ " Most Active (by volume) — NSE</strong><br/>" +:+ nl
  +:+ "      <em>Run at " +:+ ist_time_str +:+ " IST</em></p>" +:+ nl
  +:+ "      " +:+ nse_tbl +:+ nl
  +:+ "      <br/>" +:+ nl
  +:+ "      <p><strong>Top " +:+ str_of_Z (Z.of_nat bse_len)
  +:+ " Most Active (by volume) — BSE</strong></p>" +:+ nl
  +:+ "      " +:+ bse_tbl +:+ nl
  +:+ "      <p style=" +:+ dq +:+ "color:#666;font-size:12px;" +:+ dq
  +:+ ">Source: Yahoo Finance Screener (unofficial).</p>" +:+ nl
  +:+ "    </body></html>" +:+ nl
  +:+ "    ".

Definition build_email_html (lib : pylib) (ist_time_str : string)
    (nse_rows bse_rows : list row) : result string :=
  nse_tbl ← tbl lib nse_rows "NSE (.NS)";
  bse_tbl ← tbl lib bse_rows "BSE (.BO)";
  Ok (email_frame ist_time_str (length nse_rows) nse_tbl (length bse_rows) bse_tbl).

(** ** Configuration *)

(** The module-level globals of lines 22-30. *)
Record config : Type := mk_config {
  SMTP_HOST : string;
  SMTP_PORT : Z;
  SMTP_USER : string;
  SMTP_PASS : string;
  FROM_EMAIL : string;
  TO_EMAILS : list string;
  TOP_N : Z;
  ENFORCE_MARKET_HOURS : bool;
  LOG_LEVEL : string
}.

(** [os.getenv(k, dflt)] on an environment *)
Definition getenv (env : gmap string string) (k dflt : string) : string :=
  default dflt (env !! k).

(** [s or t] on strings *)
Definition str_or (s t : string) : string :=
  match s with EmptyString => t | _ => s end.

(** The globals read from the environment. The values that lines 23 and
    27-30 parse out of their variables with [int], [split], [strip],
    [lower] and [upper] are taken as already parsed. *)
Definition config_of_env (env : gmap string string) (smtp_port : Z)
    (to_emails : list string) (top_n : Z) (enforce : bool) (log_level : string) : config :=
  let smtp_user := getenv env "SMTP_USER" "" in
  {| SMTP_HOST := getenv env "SMTP_HOST" "";
     SMTP_PORT := smtp_port;
     SMTP_USER := smtp_user;
     SMTP_PASS := getenv env "SMTP_PASS" "";
     FROM_EMAIL := getenv env "FROM_EMAIL" (str_or smtp_user "");
     TO_EMAILS := to_emails;
     TOP_N := top_n;
     ENFORCE_MARKET_HOURS := enforce;
     LOG_LEVEL := log_level |}.

(** ** Mail dispatcher *)

(** What the relay does with the one session of [send_email]: the step
    that raises, if any. *)
Inductive smtp_relay : Type :=
| Relay_ok
| Connect_fails
| Starttls_fails
| Login_fails
| Sendmail_fails.

Definition str_truthy (s : string) : bool :=
  match s with EmptyString => false | _ => true end.

(** The condition of line 127 *)
Definition config_complete (cfg : config) : bool :=
  str_truthy (SMTP_HOST cfg) && negb (SMTP_PORT cfg =? 0) && str_truthy (SMTP_USER cfg)
  && str_truthy (SMTP_PASS cfg) && str_truthy (FROM_EMAIL cfg)
  && match TO_EMAILS cfg with [] => false | _ => true end.

Definition CONFIG_MISSING : string :=
  "Email config missing. Set SMTP_*, FROM_EMAIL, TO_EMAILS as GitHub Secrets.".

(** The [with smtplib.SMTP(...) as server] block (lines 136-139): leaving
    the block, normally or by an exception, quits the session. *)
Definition smtp_session (cfg : config) (relay : smtp_relay) (subject html_body : string)
  : M unit :=
  let connect := EvSmtpConnect (SMTP_HOST cfg) (SMTP_PORT cfg) in
  let login := EvLogin (SMTP_USER cfg) (SMTP_PASS cfg) in
  let send := EvSendmail (FROM_EMAIL cfg) (TO_EMAILS cfg) subject html_body in
  match relay with
  | Connect_fails => (Raise (OtherError "SMTP connect"), [connect])
  | Starttls_fails => (Raise (OtherError "SMTP starttls"), [connect; EvStartTls; EvSmtpQuit])
  | Login_fails => (Raise (OtherError "SMTP login"), [connect; EvStartTls; login; EvSmtpQuit])
  | Sendmail_fails =>
      (Raise (OtherError "SMTP sendmail"), [connect; EvStartTls; login; send; EvSmtpQuit])
  | Relay_ok => (Ok tt, [connect; EvStartTls; login; send; EvSmtpQuit])
  end.

Definition send_email (cfg : config) (relay : smtp_relay) (subject html_body : string)
  : M unit :=
  if negb (config_complete cfg) then lift (Raise (RuntimeError CONFIG_MISSING))
  else
    (smtp_session cfg relay subject html_body ;;;
     emit (EvLog INFO "Email sent to: %s")).

(** ** Orchestration *)

(** The world of one run: the clock reading, the screener's answer to each
    attempt, and the relay. *)
Record world : Type := mk_world {
  utcnow : datetime;
  server : Z → http_outcome;
  relay : smtp_relay
}.

(** [for q in quotes]: the elements an iteration over [v] yields. *)
Definition py_iter (v : json) : result (list json) :=
  match v with
  | JList l => Ok l
  | JStr s => Ok (map (λ c, JStr (String c EmptyString)) (list_ascii_of_string s))
  | JObj m => Ok (map (λ kv, JStr kv.1) (map_to_list m))
  | _ => Raise TypeError
  end.

Definition main (lib : pylib) (cfg : config) (w : world) : M unit :=
  ist_dt <- lift (now_ist_dt (utcnow w)) ;;
  let ist_time_str := strftime lib ist_dt in
  gate_open <- lift (is_market_open_ist (utcnow w) (Some ist_dt)) ;;
  if ENFORCE_MARKET_HOURS cfg && negb gate_open then
    emit (EvLog INFO "Outside Indian market hours. Skipping send. Now IST: %s")
  else
    (quotes <- (let '(q, tr) := yahoo_screener_most_active_india (server w)
                                  (Z.max (TOP_N cfg * 6) 60) 3 15 in (Ok q, tr)) ;;
     if negb (truthy quotes) then
       emit (EvLog WARNING "No quotes fetched; aborting email.")
     else
       (qs <- lift (py_iter quotes) ;;
        nse <- lift (select_top_by_exchange qs ".NS" (TOP_N cfg)) ;;
        bse <- lift (select_top_by_exchange qs ".BO" (TOP_N cfg)) ;;
        let subject := "India Most-Active (Vol) — NSE/BSE Top " +:+ str_of_Z (TOP_N cfg)
                       +:+ " @ " +:+ ist_time_str +:+ " IST" in
        emit EvRender ;;;
        html <- lift (build_email_html lib ist_time_str nse bse) ;;
        send_email cfg (relay w) subject html)).

(** ** Notions the properties are stated with *)

(** Non-increasing by key *)
Definition desc {A} (key : A → Z) (a b : A) : Prop := key b ≤ key a.

(** Quotes on which no step of the loop can raise: a dict whose symbol is
    a string (or missing, null or otherwise falsy) and whose volume
    fields hold no NaN and no infinity. *)
Definition finite_or_not_float (v : json) : Prop :=
  match v with
  | JFloat S754_nan | JFloat (S754_infinity _) => False
  | _ => True
  end.

Definition wf_quote (q : json) : Prop :=
  ∃ d, q = JObj d
       ∧ (∀ v, d !! "symbol" = Some v → truthy v = true → ∃ s, v = JStr s)
       ∧ finite_or_not_float (default JNull (d !! "regularMarketVolume"))
       ∧ finite_or_not_float (default JNull (d !! "averageDailyVolume3Month")).

(** A quote given by its fields *)
Definition quote_of (fields : list (string * json)) : json :=
  JObj (list_to_map fields).

(** A quote with a symbol and a [regularMarketVolume] *)
Definition quote_sv (sym : string) (vol : Z) : json :=
  quote_of [("symbol", JStr sym); ("regularMarketVolume", JInt vol)].

(** The volume as the specification words it: [regularMarketVolume] if
    present and numeric, else [averageDailyVolume3Month] if present and
    numeric, else 0. *)
Definition is_number (v : json) : bool :=
  match v with
  | JInt _ | JFloat _ => true
  | _ => false
  end.

Definition present_numeric (d : gmap string json) (k : string) : option json :=
  match d !! k with
  | Some v => if is_number v then Some v else None
  | None => None
  end.

Definition spec_volume (d : gmap string json) : json :=
  match present_numeric d "regularMarketVolume" with
  | Some v => v
  | None =>
      match present_numeric d "averageDailyVolume3Month" with
      | Some v => v
      | None => JInt 0
      end
  end.

(** Days of the week; day 1 of the proleptic Gregorian calendar,
    0001-01-01, is a Monday. *)
Inductive dow : Type :=
  Monday | Tuesday | Wednesday | Thursday | Friday | Saturday | Sunday.

Definition dow_of_ordinal (ord : Z) : dow :=
  match (ord - 1) mod 7 with
  | 0 => Monday
  | 1 => Tuesday
  | 2 => Wednesday
  | 3 => Thursday
  | 4 => Friday
  | 5 => Saturday
  | _ => Sunday
  end.

Definition is_mon_fri (d : dow) : bool :=
  match d with
  | Saturday | Sunday => false
  | _ => true
  end.

(** The fields of a [datetime.time] are in range. *)
Definition valid_time (t : dtime) : Prop :=
  0 ≤ hour t < 24 ∧ 0 ≤ minute t < 60 ∧ 0 ≤ second t < 60
  ∧ 0 ≤ microsecond t < 1000000.

(** Microseconds from the start of day 0 to [dt] *)
Definition abs_us (dt : datetime) : Z :=
  ordinal dt * US_PER_DAY + us_of_time (dt_time dt).

(** A fetch attempt fails: the request raises, the status is not 200, or
    the body of a 200 answer does not decode. *)
Definition attempt_failed (o : http_outcome) : Prop :=
  match o with
  | Transport_error => True
  | Response status_code _ body => status_code ≠ 200 ∨ ∃ e, body = Raise e
  end.

(** The requests, the sleeps and the mail-session events of a trace *)
Definition posts_of (tr : list event) : list (string * Z * Z) :=
  omap (λ ev, match ev with EvPost u s t => Some (u, s, t) | _ => None end) tr.

Definition sleeps_of (tr : list event) : list Q :=
  omap (λ ev, match ev with EvSleep s => Some s | _ => None end) tr.

Definition is_mail_event (ev : event) : bool :=
  match ev with
  | EvSmtpConnect _ _ | EvStartTls | EvLogin _ _ | EvSendmail _ _ _ _ | EvSmtpQuit => true
  | _ => false
  end.

Definition is_render (ev : event) : bool :=
  match ev with EvRender => true | _ => false end.

(** [sub] occurs in [s] *)
Definition contains (s sub : string) : Prop :=
  ∃ pre post, s = pre +:+ sub +:+ post.

(** The strings of a list, one after the other *)
Definition str_concat (l : list string) : string := foldr String.append "" l.

(** A field of the mail configuration is empty or unset *)
Definition config_missing (cfg : config) : Prop :=
  SMTP_HOST cfg = "" ∨ SMTP_PORT cfg = 0 ∨ SMTP_USER cfg = "" ∨ SMTP_PASS cfg = ""
  ∨ FROM_EMAIL cfg = "" ∨ TO_EMAILS cfg = [].

(** The three numbers of a row format without error *)
Definition row_formats (lib : pylib) (r : row) : Prop :=
  is_Ok (cell_2f lib (r_price r)) ∧ is_Ok (cell_2f lib (r_change r))
  ∧ is_Ok (cell_2f lib (r_change_pct r)).

Definition starts_with (s pre : string) : Prop :=
  ∃ post, s = pre +:+ post.

(** ** Notions of the further properties *)

(** A cell of a row holds [None] or a number. *)
Definition none_or_number (v : json) : Prop :=
  v = JNull ∨ is_int_or_float v = true.

(** An attempt that does not return: the request raises, the status is
    not 200, the body does not decode, or the path to the quotes cannot
    be followed in the decoded body. *)
Definition attempt_falls_through (o : http_outcome) : Prop :=
  match o with
  | Transport_error => True
  | Response status_code _ body =>
      status_code ≠ 200 ∨ ∃ e, (data ← body; extract_quotes data) = Raise e
  end.

(** An attempt that returns [quotes]: status 200 and a decoded body in
    which the path to the quotes can be followed. *)
Definition attempt_returns (o : http_outcome) (quotes : json) : Prop :=
  ∃ text data, o = Response 200 text (Ok data) ∧ extract_quotes data = Ok quotes.

(** The sum of a list of durations *)
Definition Qsum (l : list Q) : Q := foldr Qplus 0%Q l.

(** [s] without its commas *)
Definition strip_commas (s : string) : string :=
  string_of_list_ascii (filter (λ c, c ≠ ","%char) (list_ascii_of_string s)).

Definition is_sendmail (ev : event) : bool :=
  match ev with EvSendmail _ _ _ _ => true | _ => false end.

(** The subject line of the mail (line 157) *)
Definition subject_of (cfg : config) (ist_time_str : string) : string :=
  "India Most-Active (Vol) — NSE/BSE Top " +:+ str_of_Z (TOP_N cfg)
  +:+ " @ " +:+ ist_time_str +:+ " IST".

(** Sample data for the examples *)
Definition sample_quotes : list json :=
  [quote_sv "INFY.NS" 900; quote_sv "TCS.NS" 500; quote_sv "X.BO" 100;
   quote_sv "SBIN.NS" 500].

Definition sample_lib : pylib :=
  mk_pylib (λ _, Ok "0.00") (λ _, "") (λ _, "2024-01-03 10:00").

Definition sample_cfg : config :=
  config_of_env (list_to_map [("SMTP_HOST", "smtp.example.org"); ("SMTP_USER", "bot");
                              ("SMTP_PASS", "secret")])
    587 ["desk@example.org"] 10 true "INFO".


(** The run gets as far as the mail: the local time is computed, the gate
    lets the run pass, the first request is answered with the non-empty
    list [qs] of quotes, both rankings and the report [html] are built. *)
Definition reaches_mail (lib : pylib) (cfg : config) (w : world)
    (ist_dt : datetime) (html : string) : Prop :=
  now_ist_dt (utcnow w) = Ok ist_dt
  ∧ ENFORCE_MARKET_HOURS cfg && negb (market_open ist_dt) = false
  ∧ ∃ qs nse bse,
      attempt_returns (server w 1) (JList qs) ∧ qs ≠ []
      ∧ select_top_by_exchange qs ".NS" (TOP_N cfg) = Ok nse
      ∧ select_top_by_exchange qs ".BO" (TOP_N cfg) = Ok bse
      ∧ build_email_html lib (strftime lib ist_dt) nse bse = Ok html.

(** The screener's answer with the sample quotes, and a world in which it
    is the first answer, at 10:00 local time on Wednesday 2024-01-03. *)
Definition sample_body : json :=
  quote_of [("finance",
             quote_of [("result", JList [quote_of [("quotes", JList sample_quotes)]])])].

Definition sample_world (relay : smtp_relay) : world :=
  mk_world (datetime_of 2024 1 3 4 30 0 0) (λ _, Response 200 "" (Ok sample_body)) relay.

Definition sample_html : string :=
  match
    nse ← select_top_by_exchange sample_quotes ".NS" 10;
    bse ← select_top_by_exchange sample_quotes ".BO" 10;
    build_email_html sample_lib "2024-01-03 10:00" nse bse
  with
  | Ok html => html
  | Raise _ => ""
  end.

(** * Properties *)

(** ** The result monad *)

Lemma bind_Ok_inv {A B} (m : result A) (f : A → result B) (b : B) :
  m ≫= f = Ok b → ∃ a, m = Ok a ∧ f a = Ok b.
Proof. destruct m as [a|e]; simpl; [eauto | discriminate]. Qed.

(** ** The library sort: sorted, a permutation, stable *)

Section SortFacts.
Context {A : Type} (key : A → Z).

Lemma insert_desc_Permutation x l : insert_desc key x l ≡ₚ x :: l.
Proof.
  induction l as [|y l IH]; simpl; [done|].
  destruct (key x <? key y); [|done].
  rewrite IH. apply Permutation_swap.
Qed.

Lemma sort_key_reverse_Permutation l : sort_key_reverse key l ≡ₚ l.
Proof.
  induction l as [|x l IH]; simpl; [done|].
  by rewrite insert_desc_Permutation, IH.
Qed.

Lemma insert_desc_sorted x l :
  StronglySorted (desc key) l → StronglySorted (desc key) (insert_desc key x l).
Proof.
  induction 1 as [|y l Hs IH Hy]; simpl.
  - repeat constructor.
  - destruct (Z.ltb_spec (key x) (key y)) as [Hlt|Hge].
    + constructor; [done|].
      rewrite insert_desc_Permutation. constructor; [unfold desc; lia | done].
    + constructor; [by constructor|].
      constructor; [done|].
      eapply Forall_impl; [exact Hy|]. unfold desc. intros z Hz. simpl in *. lia.
Qed.

Lemma sort_key_reverse_sorted l : StronglySorted (desc key) (sort_key_reverse key l).
Proof.
  induction l as [|x l IH]; simpl; [constructor | by apply insert_desc_sorted].
Qed.

(** Stability: the elements of any one key keep their order. *)
Lemma insert_desc_filter v x l :
  filter (λ a, key a = v) (insert_desc key x l) = filter (λ a, key a = v) (x :: l).
Proof.
  induction l as [|y l IH]; simpl; [done|].
  destruct (Z.ltb_spec (key x) (key y)) as [Hlt|Hge]; [|done].
  rewrite !filter_cons in *.
  destruct (decide (key y = v)) as [Hy|Hy], (decide (key x = v)) as [Hx|Hx];
    try lia; by rewrite IH.
Qed.

Lemma sort_key_reverse_stable v l :
  filter (λ a, key a = v) (sort_key_reverse key l) = filter (λ a, key a = v) l.
Proof.
  induction l as [|x l IH]; simpl; [done|].
  rewrite insert_desc_filter, !filter_cons, IH. done.
Qed.

Lemma StronglySorted_take n l :
  StronglySorted (desc key) l → StronglySorted (desc key) (take n l).
Proof.
  intros Hs. revert n. induction Hs as [|x l Hs IH Hx]; intros [|n]; simpl;
    try constructor; [apply IH|].
  eapply Forall_forall. intros y Hy. eapply Forall_forall in Hx; [exact Hx|].
  apply elem_of_take in Hy as (i & Hi & _).
  by eapply list_elem_of_lookup_2.
Qed.

Lemma filter_take_prefix (P : A → Prop) `{!∀ a, Decision (P a)} n l :
  filter P (take n l) `prefix_of` filter P l.
Proof.
  exists (filter P (drop n l)). by rewrite <- filter_app, take_drop.
Qed.
End SortFacts.

(** ** Strings *)

Lemma str_app_cons (c : ascii) (a b : string) :
  String c a +:+ b = String c (a +:+ b).
Proof. reflexivity. Qed.

Lemma str_app_nil_l (b : string) : "" +:+ b = b.
Proof. reflexivity. Qed.

Lemma str_length_app (a b : string) :
  String.length (a +:+ b) = (String.length a + String.length b)%nat.
Proof.
  induction a as [|c a IH]; [done|]. rewrite str_app_cons. simpl. by rewrite IH.
Qed.

Lemma str_app_assoc (a b c : string) : (a +:+ b) +:+ c = a +:+ b +:+ c.
Proof.
  induction a as [|x a IH]; [done|]. rewrite !str_app_cons. by rewrite IH.
Qed.

Lemma str_app_nil_r (a : string) : a +:+ "" = a.
Proof.
  induction a as [|x a IH]; [done|]. rewrite str_app_cons. by rewrite IH.
Qed.

Lemma substring_0_length (s : string) : substring 0 (String.length s) s = s.
Proof. induction s as [|c s IH]; simpl; [done | by rewrite IH]. Qed.

Lemma substring_app_r (p s : string) :
  substring (String.length p) (String.length s) (p +:+ s) = s.
Proof.
  induction p as [|c p IH]; [apply substring_0_length|].
  rewrite str_app_cons. simpl. done.
Qed.

Lemma substring_split (m : nat) (s : string) :
  (m ≤ String.length s)%nat →
  substring 0 m s +:+ substring m (String.length s - m) s = s.
Proof.
  revert m. induction s as [|c s IH]; intros [|m] Hm; simpl in *; try lia.
  - done.
  - rewrite str_app_nil_l. by rewrite substring_0_length.
  - rewrite str_app_cons, IH by lia. done.
Qed.

(** [endswith] is the exact suffix relation on strings. *)
Lemma endswith_spec (s suffix : string) :
  endswith s suffix = true ↔ ∃ p, s = p +:+ suffix.
Proof.
  unfold endswith. split.
  - intros [Hle Heq]%andb_prop. apply Nat.leb_le in Hle. apply String.eqb_eq in Heq.
    exists (substring 0 (String.length s - String.length suffix) s).
    pose proof (substring_split (String.length s - String.length suffix) s) as Hs.
    replace (String.length s - (String.length s - String.length suffix))%nat
      with (String.length suffix) in Hs by lia.
    rewrite Heq in Hs. symmetry. apply Hs. lia.
  - intros [p ->]. rewrite str_length_app.
    apply andb_true_intro. split; [apply Nat.leb_le; lia|].
    replace (String.length p + String.length suffix - String.length suffix)%nat
      with (String.length p) by lia.
    rewrite substring_app_r. apply String.eqb_refl.
Qed.

Lemma endswith_empty_false (suffix : string) :
  suffix ≠ "" → endswith "" suffix = false.
Proof. destruct suffix; [done|]. intros _. reflexivity. Qed.

(** ** The ranker's loop *)

Lemma row_of_quote_Some (q : json) (suffix : string) (r : row) :
  row_of_quote q suffix = Ok (Some r) →
  ∃ d, q = JObj d ∧ symbol_of q = Ok (JStr (r_symbol r))
       ∧ endswith (r_symbol r) suffix = true
       ∧ compute_volume d = Ok (r_volume r).
Proof.
  unfold row_of_quote. intros (sym & Hsym & H)%bind_Ok_inv.
  destruct sym as [| | | |s| |]; try discriminate.
  destruct q as [| | | | | |d]; try discriminate.
  destruct (endswith s suffix) eqn:He; simpl in H; [|discriminate].
  apply bind_Ok_inv in H as (vol & Hvol & H).
  injection H as <-. simpl. eauto.
Qed.

Lemma collect_rows_elem (quotes : list json) (suffix : string) (rows : list row) (r : row) :
  collect_rows quotes suffix = Ok rows → r ∈ rows →
  ∃ q, q ∈ quotes ∧ row_of_quote q suffix = Ok (Some r).
Proof.
  revert rows. induction quotes as [|q quotes IH]; simpl; intros rows H Hr.
  - injection H as <-. by apply elem_of_nil in Hr.
  - apply bind_Ok_inv in H as (o & Ho & H).
    apply bind_Ok_inv in H as (rows' & Hrows' & H). injection H as <-.
    destruct o as [r'|].
    + apply elem_of_cons in Hr as [->|Hr].
      * exists q. split; [left | done].
      * destruct (IH _ Hrows' Hr) as (q' & ? & ?). exists q'. split; [by right | done].
    + destruct (IH _ Hrows' Hr) as (q' & ? & ?). exists q'. split; [by right | done].
Qed.

(** The loop treats the input left to right: the rows of [q1 ++ q2] are
    the rows of [q1] followed by the rows of [q2]. *)
Lemma collect_rows_app (q1 q2 : list json) (suffix : string) :
  collect_rows (q1 ++ q2) suffix =
  (r1 ← collect_rows q1 suffix; r2 ← collect_rows q2 suffix; Ok (r1 ++ r2)).
Proof.
  induction q1 as [|q q1 IH]; simpl.
  - by destruct (collect_rows q2 suffix).
  - destruct (row_of_quote q suffix) as [o|e]; simpl; [|done].
    rewrite IH. destruct (collect_rows q1 suffix) as [r1|e]; simpl; [|done].
    destruct (collect_rows q2 suffix) as [r2|e]; simpl; [|done].
    by destruct o.
Qed.

Lemma py_int_finite (v : json) :
  finite_or_not_float v → is_int_or_float v = true → is_Ok (py_int v).
Proof.
  destruct v as [|b|z|f|s|l|m]; simpl; try discriminate; intros Hf _;
    [eexists; done | eexists; done |].
  destruct f; simpl in *; try done; eexists; done.
Qed.

Lemma compute_volume_total (d : gmap string json) :
  finite_or_not_float (default JNull (d !! "regularMarketVolume")) →
  finite_or_not_float (default JNull (d !! "averageDailyVolume3Month")) →
  is_Ok (compute_volume d).
Proof.
  intros H1 H2. unfold compute_volume, py_or.
  destruct (truthy (default JNull (d !! "regularMarketVolume"))) eqn:T1.
  - rewrite T1.
    destruct (is_int_or_float _) eqn:E; [by apply py_int_finite | by eexists].
  - destruct (truthy (default JNull (d !! "averageDailyVolume3Month"))) eqn:T2.
    + destruct (is_int_or_float _) eqn:E; [by apply py_int_finite | by eexists].
    + simpl. by eexists.
Qed.

Lemma row_of_quote_total (q : json) (suffix : string) :
  wf_quote q → is_Ok (row_of_quote q suffix).
Proof.
  intros (d & -> & Hsym & H1 & H2). unfold row_of_quote, symbol_of. simpl.
  unfold py_or. destruct (d !! "symbol") as [v|] eqn:Hv; simpl.
  - destruct (truthy v) eqn:Tv.
    + destruct (Hsym v eq_refl Tv) as [s ->].
      destruct (endswith s suffix); simpl; [|by eexists].
      destruct (compute_volume_total d H1 H2) as [vol ->]. simpl. by eexists.
    + destruct (endswith "" suffix); simpl; [|by eexists].
      destruct (compute_volume_total d H1 H2) as [vol ->]. simpl. by eexists.
  - destruct (endswith "" suffix); simpl; [|by eexists].
    destruct (compute_volume_total d H1 H2) as [vol ->]. simpl. by eexists.
Qed.

Lemma collect_rows_total (quotes : list json) (suffix : string) :
  Forall wf_quote quotes → is_Ok (collect_rows quotes suffix).
Proof.
  induction 1 as [|q quotes Hq _ IH]; simpl; [by eexists|].
  destruct (row_of_quote_total q suffix Hq) as [o ->]. simpl.
  destruct IH as [rows ->]. simpl. by eexists.
Qed.

(** C1. For every list of quotes, every suffix and every top-N count
    (a count, so not negative), the list [select_top_by_exchange] returns
    has at most top-N rows, is sorted non-increasing by volume, and keeps
    rows of equal volume in their input order: for each volume [v], the
    returned rows of volume [v] are an initial segment of the kept rows of
    volume [v] in input order. The returned rows are among the kept rows,
    and on well-formed quotes the function does return. *)
Theorem select_top_sorted_stable (quotes : list json) (suffix : string) (top_n : Z) :
  0 ≤ top_n →
  (Forall wf_quote quotes → is_Ok (select_top_by_exchange quotes suffix top_n))
  ∧ ∀ out, select_top_by_exchange quotes suffix top_n = Ok out →
      Z.of_nat (length out) ≤ top_n
      ∧ StronglySorted (λ a b, r_volume b ≤ r_volume a) out
      ∧ ∃ rows, collect_rows quotes suffix = Ok rows
                ∧ out ⊆+ rows
                ∧ ∀ v, filter (λ r, r_volume r = v) out
                         `prefix_of` filter (λ r, r_volume r = v) rows.
Proof.
  intros Hn. unfold select_top_by_exchange. split.
  - intros Hwf. destruct (collect_rows_total quotes suffix Hwf) as [rows ->].
    simpl. by eexists.
  - intros out (rows & Hrows & H)%bind_Ok_inv. injection H as <-.
    unfold py_slice_to. destruct (Z.leb_spec 0 top_n) as [_|]; [|lia].
    split; [rewrite length_take; lia|].
    split; [apply (StronglySorted_take r_volume), (sort_key_reverse_sorted r_volume)|].
    exists rows. split; [done|]. split.
    + rewrite <- (sort_key_reverse_Permutation r_volume rows) at 2.
      apply sublist_submseteq, sublist_take.
    + intros v. rewrite <- (sort_key_reverse_stable r_volume v rows).
      apply filter_take_prefix.
Qed.

Lemma select_top_sorted_stable_witness :
  0 ≤ 2
  ∧ (Forall wf_quote [quote_sv "TCS.NS" 500; quote_sv "INFY.NS" 900; quote_sv "X.BO" 100]
     → is_Ok (select_top_by_exchange
                [quote_sv "TCS.NS" 500; quote_sv "INFY.NS" 900; quote_sv "X.BO" 100] ".NS" 2))
  ∧ ∀ out,
      select_top_by_exchange
        [quote_sv "TCS.NS" 500; quote_sv "INFY.NS" 900; quote_sv "X.BO" 100] ".NS" 2 = Ok out →
      Z.of_nat (length out) ≤ 2
      ∧ StronglySorted (λ a b, r_volume b ≤ r_volume a) out
      ∧ ∃ rows,
          collect_rows [quote_sv "TCS.NS" 500; quote_sv "INFY.NS" 900; quote_sv "X.BO" 100] ".NS"
          = Ok rows
          ∧ out ⊆+ rows
          ∧ ∀ v, filter (λ r, r_volume r = v) out
                   `prefix_of` filter (λ r, r_volume r = v) rows.
Proof.
  assert (H : 0 ≤ 2) by lia.
  exact (conj H (select_top_sorted_stable _ ".NS" 2 H)).
Defined.

(** The ranking scenario: of TCS.NS (500), INFY.NS (900) and X.BO (100)
    with top-N 2, the NSE list is INFY.NS, TCS.NS and the BSE list is
    X.BO. *)
Example select_top_scenario :
  let quotes := [quote_sv "TCS.NS" 500; quote_sv "INFY.NS" 900; quote_sv "X.BO" 100] in
  (map (λ r, (r_symbol r, r_volume r)) <$> select_top_by_exchange quotes ".NS" 2)
    = Ok [("INFY.NS", 900); ("TCS.NS", 500)]
  ∧ (map (λ r, (r_symbol r, r_volume r)) <$> select_top_by_exchange quotes ".BO" 2)
    = Ok [("X.BO", 100)].
Proof. vm_compute. done. Qed.

(** Rows of equal volume come out in input order, and a negative top-N
    drops rows from the end of the ranking instead of bounding its
    length. *)
Example select_top_ties_and_negative :
  let quotes := [quote_sv "A.NS" 500; quote_sv "B.NS" 900; quote_sv "C.NS" 500;
                 quote_sv "D.NS" 900] in
  (map r_symbol <$> select_top_by_exchange quotes ".NS" 3) = Ok ["B.NS"; "D.NS"; "A.NS"]
  ∧ (map r_symbol <$> select_top_by_exchange quotes ".NS" (-1))
    = Ok ["B.NS"; "D.NS"; "A.NS"].
Proof. vm_compute. done. Qed.

(** ** Computed volume *)

(** C2, counterexample. As the claim words it, a [regularMarketVolume]
    that is present and numeric is the computed volume. A quote with [regularMarketVolume] 0
    and [averageDailyVolume3Month] 500 has the numeric field 0 present,
    yet its computed volume is 500: [or] skips a zero. *)
Lemma compute_volume_zero_counterexample :
  let d : gmap string json :=
    list_to_map [("symbol", JStr "X.NS"); ("regularMarketVolume", JInt 0);
                 ("averageDailyVolume3Month", JInt 500)] in
  d !! "regularMarketVolume" = Some (JInt 0)
  ∧ spec_volume d = JInt 0
  ∧ compute_volume d = Ok 500
  ∧ compute_volume d ≠ py_int (spec_volume d)
  ∧ (map r_volume <$> select_top_by_exchange [JObj d] ".NS" 1) = Ok [500].
Proof. vm_compute. repeat split; discriminate. Qed.

(** Two more ways the computed volume leaves the wording: a non-numeric
    [regularMarketVolume] that is truthy hides a numeric
    [averageDailyVolume3Month], and a float is truncated to an int. *)
Example compute_volume_string_and_float :
  compute_volume (list_to_map [("regularMarketVolume", JStr "n/a");
                               ("averageDailyVolume3Month", JInt 500)]) = Ok 0
  ∧ compute_volume (list_to_map [("regularMarketVolume",
                                  JFloat (S754_finite false 7 (-2)))]) = Ok 1.
Proof. vm_compute. done. Qed.

(** C2, amended. The computed volume of a quote is [int(v)] where [v] is
    [regularMarketVolume] when that field is truthy (present and not
    null, zero or empty), otherwise [averageDailyVolume3Month] when that
    one is truthy, otherwise 0; it is 0 when [v] is not a number. So a
    non-zero integer [regularMarketVolume] is the computed volume; an
    integer [averageDailyVolume3Month] is the computed volume when
    [regularMarketVolume] is missing, null or zero; a quote lacking both
    fields has computed volume 0; and the volume of every row produced
    from a kept quote is this computed volume. *)
Theorem compute_volume_first_truthy (d : gmap string json) :
  let rmv := default JNull (d !! "regularMarketVolume") in
  let adv := default JNull (d !! "averageDailyVolume3Month") in
  let v := if truthy rmv then rmv else if truthy adv then adv else JInt 0 in
  compute_volume d = (if is_int_or_float v then py_int v else Ok 0)
  ∧ (∀ z, z ≠ 0 → d !! "regularMarketVolume" = Some (JInt z) → compute_volume d = Ok z)
  ∧ (∀ z, truthy rmv = false → d !! "averageDailyVolume3Month" = Some (JInt z) →
          compute_volume d = Ok z)
  ∧ (d !! "regularMarketVolume" = None → d !! "averageDailyVolume3Month" = None →
     compute_volume d = Ok 0)
  ∧ (∀ suffix r, row_of_quote (JObj d) suffix = Ok (Some r) →
                 compute_volume d = Ok (r_volume r)).
Proof.
  simpl. repeat split.
  - unfold compute_volume, py_or.
    destruct (truthy (default JNull (d !! "regularMarketVolume"))) eqn:T1.
    + rewrite ?T1. done.
    + destruct (truthy (default JNull (d !! "averageDailyVolume3Month"))) eqn:T2;
        rewrite ?T2; done.
  - intros z Hz Hd. unfold compute_volume, py_or. rewrite Hd. simpl.
    destruct (Z.eqb_spec z 0); [done|]. simpl.
    destruct (Z.eqb_spec z 0); [done|]. done.
  - intros z T1 Hd. unfold compute_volume, py_or. rewrite T1, Hd. simpl.
    destruct (Z.eqb_spec z 0) as [->|]; simpl; [done|].
    destruct (Z.eqb_spec z 0); done.
  - intros H1 H2. unfold compute_volume, py_or. rewrite H1, H2. done.
  - intros suffix r (d' & Hd' & _ & _ & Hvol)%row_of_quote_Some.
    by injection Hd' as <-.
Qed.

Lemma compute_volume_first_truthy_witness :
  let d : gmap string json :=
    list_to_map [("symbol", JStr "X.NS"); ("regularMarketVolume", JInt 0);
                 ("averageDailyVolume3Month", JInt 500)] in
  truthy (default JNull (d !! "regularMarketVolume")) = false
  ∧ d !! "averageDailyVolume3Month" = Some (JInt 500)
  ∧ compute_volume d = Ok 500.
Proof.
  intros d.
  assert (H1 : truthy (default JNull (d !! "regularMarketVolume")) = false)
    by (vm_compute; reflexivity).
  assert (H2 : d !! "averageDailyVolume3Month" = Some (JInt 500))
    by (vm_compute; reflexivity).
  exact (conj H1 (conj H2
           (proj1 (proj2 (proj2 (compute_volume_first_truthy d))) 500 H1 H2))).
Defined.

(** ** Suffix filter *)

(** C7. No quote whose symbol does not end with the requested suffix
    (as a string, byte for byte) appears in the ranked list: every
    returned row was produced from an input quote whose symbol ends with
    the suffix and carries that symbol, and an input quote whose symbol
    does not end with the suffix produces no row and shares its symbol
    with no returned row. *)
Theorem select_top_only_suffix (quotes : list json) (suffix : string) (top_n : Z)
    (out : list row) :
  select_top_by_exchange quotes suffix top_n = Ok out →
  (∀ r, r ∈ out →
        ∃ q, q ∈ quotes ∧ row_of_quote q suffix = Ok (Some r)
             ∧ symbol_of q = Ok (JStr (r_symbol r))
             ∧ ∃ p, r_symbol r = p +:+ suffix)
  ∧ (∀ q s, q ∈ quotes → symbol_of q = Ok (JStr s) → (¬ ∃ p, s = p +:+ suffix) →
            row_of_quote q suffix = Ok None
            ∧ ∀ r, r ∈ out → r_symbol r ≠ s ∧ row_of_quote q suffix ≠ Ok (Some r)).
Proof.
  unfold select_top_by_exchange. intros (rows & Hrows & H)%bind_Ok_inv.
  injection H as <-.
  assert (Hin : ∀ r, r ∈ py_slice_to (sort_key_reverse r_volume rows) top_n → r ∈ rows).
  { intros r Hr. rewrite <- (sort_key_reverse_Permutation r_volume rows).
    unfold py_slice_to in Hr. destruct (0 <=? top_n);
      apply elem_of_take in Hr as (i & Hi & _); by eapply list_elem_of_lookup_2. }
  assert (Hrow : ∀ r, r ∈ py_slice_to (sort_key_reverse r_volume rows) top_n →
            ∃ q, q ∈ quotes ∧ row_of_quote q suffix = Ok (Some r)
                 ∧ symbol_of q = Ok (JStr (r_symbol r))
                 ∧ ∃ p, r_symbol r = p +:+ suffix).
  { intros r Hr%Hin.
    destruct (collect_rows_elem _ _ _ _ Hrows Hr) as (q & Hq & Hrq).
    exists q. repeat split; [done..| |].
    - by destruct (row_of_quote_Some _ _ _ Hrq) as (d & _ & ? & _).
    - destruct (row_of_quote_Some _ _ _ Hrq) as (d & _ & _ & He & _).
      by apply endswith_spec. }
  split; [exact Hrow|].
  intros q s Hq Hs Hno.
  assert (Hnone : row_of_quote q suffix = Ok None).
  { unfold row_of_quote. rewrite Hs. simpl.
    destruct q as [| | | | | |d]; try (by unfold symbol_of in Hs).
    destruct (endswith s suffix) eqn:He; [|done].
    exfalso. apply Hno. by apply endswith_spec. }
  split; [done|]. intros r Hr. split.
  - intros <-. destruct (Hrow r Hr) as (_ & _ & _ & _ & Hp). by apply Hno.
  - rewrite Hnone. discriminate.
Qed.

Lemma select_top_only_suffix_witness :
  select_top_by_exchange
    [quote_sv "TCS.NS" 500; quote_sv "INFY.NS" 900; quote_sv "X.BO" 100] ".BO" 2
  = Ok [mk_row "X.BO" (JStr "X.BO") 100 JNull JNull JNull]
  ∧ row_of_quote (quote_sv "TCS.NS" 500) ".BO" = Ok None
  ∧ Forall (λ r, r_symbol r ≠ "TCS.NS") [mk_row "X.BO" (JStr "X.BO") 100 JNull JNull JNull].
Proof.
  assert (H : select_top_by_exchange
                [quote_sv "TCS.NS" 500; quote_sv "INFY.NS" 900; quote_sv "X.BO" 100] ".BO" 2
              = Ok [mk_row "X.BO" (JStr "X.BO") 100 JNull JNull JNull])
    by (vm_compute; reflexivity).
  assert (Hq : quote_sv "TCS.NS" 500
               ∈ [quote_sv "TCS.NS" 500; quote_sv "INFY.NS" 900; quote_sv "X.BO" 100])
    by (apply list_elem_of_here).
  assert (Hs : symbol_of (quote_sv "TCS.NS" 500) = Ok (JStr "TCS.NS"))
    by (vm_compute; reflexivity).
  assert (Hno : ¬ ∃ p, "TCS.NS" = p +:+ ".BO").
  { intros Hp%endswith_spec. vm_compute in Hp. discriminate. }
  pose proof (proj2 (select_top_only_suffix _ _ _ _ H) _ _ Hq Hs Hno) as [Hnone Hall].
  split; [exact H|]. split; [exact Hnone|].
  apply Forall_forall. intros r Hr. exact (proj1 (Hall r Hr)).
Defined.

(** The match is case-sensitive and positional. *)
Example endswith_cases :
  endswith "TCS.NS" ".NS" = true ∧ endswith "TCS.ns" ".NS" = false
  ∧ endswith "TCS.NSX" ".NS" = false ∧ endswith "NS" ".NS" = false
  ∧ endswith "" "" = true.
Proof. vm_compute. done. Qed.

(** C10. A quote whose symbol field is missing or null has the empty
    string as its symbol, and for a non-empty suffix it is skipped:
    the ranked list is the one of the input without that quote. *)
Theorem missing_symbol_never_selected (q1 q2 : list json) (d : gmap string json)
    (suffix : string) (top_n : Z) :
  suffix ≠ "" →
  d !! "symbol" = None ∨ d !! "symbol" = Some JNull →
  symbol_of (JObj d) = Ok (JStr "")
  ∧ row_of_quote (JObj d) suffix = Ok None
  ∧ select_top_by_exchange (q1 ++ JObj d :: q2) suffix top_n
    = select_top_by_exchange (q1 ++ q2) suffix top_n.
Proof.
  intros Hsuf Hd.
  assert (Hsym : symbol_of (JObj d) = Ok (JStr "")).
  { unfold symbol_of. simpl. by destruct Hd as [-> | ->]. }
  assert (Hrow : row_of_quote (JObj d) suffix = Ok None).
  { unfold row_of_quote. rewrite Hsym. simpl.
    by rewrite endswith_empty_false. }
  repeat split; [done..|].
  unfold select_top_by_exchange. rewrite !collect_rows_app. simpl.
  rewrite Hrow. simpl.
  destruct (collect_rows q1 suffix) as [r1|]; simpl; [|done].
  by destruct (collect_rows q2 suffix) as [r2|].
Qed.

Lemma missing_symbol_never_selected_witness :
  select_top_by_exchange
    ([quote_sv "TCS.NS" 500]
       ++ JObj (list_to_map [("regularMarketVolume", JInt 7)]) :: [quote_sv "INFY.NS" 900])
    ".NS" 5
  = select_top_by_exchange ([quote_sv "TCS.NS" 500] ++ [quote_sv "INFY.NS" 900]) ".NS" 5.
Proof.
  assert (Hsuf : ".NS" ≠ "") by discriminate.
  assert (Hd : (list_to_map [("regularMarketVolume", JInt 7)] : gmap string json)
                 !! "symbol" = None
               ∨ (list_to_map [("regularMarketVolume", JInt 7)] : gmap string json)
                 !! "symbol" = Some JNull)
    by (left; vm_compute; reflexivity).
  exact (proj2 (proj2 (missing_symbol_never_selected
                         [quote_sv "TCS.NS" 500] [quote_sv "INFY.NS" 900] _ ".NS" 5 Hsuf Hd))).
Defined.

(** ** Market-hours gate *)

Lemma time_cmp_us (a b : dtime) :
  valid_time a → valid_time b → time_cmp a b = (us_of_time a ?= us_of_time b).
Proof.
  unfold valid_time, time_cmp, us_of_time. intros Ha Hb. symmetry.
  destruct (Z.compare_spec (hour a) (hour b)) as [Hh|Hh|Hh];
    [|apply Z.compare_lt_iff; lia | apply Z.compare_gt_iff; lia].
  destruct (Z.compare_spec (minute a) (minute b)) as [Hm|Hm|Hm];
    [|apply Z.compare_lt_iff; lia | apply Z.compare_gt_iff; lia].
  destruct (Z.compare_spec (second a) (second b)) as [Hs|Hs|Hs];
    [|apply Z.compare_lt_iff; lia | apply Z.compare_gt_iff; lia].
  destruct (Z.compare_spec (microsecond a) (microsecond b)) as [Hu|Hu|Hu];
    [apply Z.compare_eq_iff; lia | apply Z.compare_lt_iff; lia | apply Z.compare_gt_iff; lia].
Qed.

Lemma valid_dtime_hm (h m : Z) : 0 ≤ h < 24 → 0 ≤ m < 60 → valid_time (dtime_hm h m).
Proof. unfold valid_time. simpl. lia. Qed.

Lemma time_ge_us (a b : dtime) :
  valid_time a → valid_time b → time_ge a b = (us_of_time b <=? us_of_time a).
Proof.
  intros Ha Hb. unfold time_ge. rewrite time_cmp_us by done.
  destruct (Z.compare_spec (us_of_time a) (us_of_time b));
    symmetry; [apply Z.leb_le | apply Z.leb_gt | apply Z.leb_le]; lia.
Qed.

Lemma time_le_us (a b : dtime) :
  valid_time a → valid_time b → time_le a b = (us_of_time a <=? us_of_time b).
Proof.
  intros Ha Hb. unfold time_le. rewrite time_cmp_us by done.
  destruct (Z.compare_spec (us_of_time a) (us_of_time b));
    symmetry; [apply Z.leb_le | apply Z.leb_le | apply Z.leb_gt]; lia.
Qed.

Lemma weekday_alt (dt : datetime) : weekday dt = (ordinal dt - 1) mod 7.
Proof.
  unfold weekday. replace (ordinal dt + 6) with (ordinal dt - 1 + 1 * 7) by lia.
  apply Z.mod_add. lia.
Qed.

(** [weekday] numbers the days from Monday = 0. *)
Lemma weekday_dow (dt : datetime) :
  match dow_of_ordinal (ordinal dt) with
  | Monday => weekday dt = 0
  | Tuesday => weekday dt = 1
  | Wednesday => weekday dt = 2
  | Thursday => weekday dt = 3
  | Friday => weekday dt = 4
  | Saturday => weekday dt = 5
  | Sunday => weekday dt = 6
  end.
Proof.
  rewrite weekday_alt. unfold dow_of_ordinal.
  pose proof (Z.mod_pos_bound (ordinal dt - 1) 7 ltac:(lia)) as Hb.
  set (k := (ordinal dt - 1) mod 7) in *.
  assert (Hk : k = 0 ∨ k = 1 ∨ k = 2 ∨ k = 3 ∨ k = 4 ∨ k = 5 ∨ k = 6) by lia.
  destruct Hk as [->|[->|[->|[->|[->|[->| ->]]]]]]; reflexivity.
Qed.

Lemma weekday_mon_fri (dt : datetime) :
  (5 <=? weekday dt) = negb (is_mon_fri (dow_of_ordinal (ordinal dt))).
Proof.
  pose proof (weekday_dow dt) as H.
  destruct (dow_of_ordinal (ordinal dt)); rewrite H; reflexivity.
Qed.

Lemma us_of_time_of_us (us : Z) :
  0 ≤ us < US_PER_DAY →
  valid_time (time_of_us us) ∧ us_of_time (time_of_us us) = us.
Proof.
  unfold US_PER_DAY, valid_time, us_of_time, time_of_us. simpl. intros Hus.
  Z.div_mod_to_equations. lia.
Qed.

Lemma us_of_time_bound (t : dtime) : valid_time t → 0 ≤ us_of_time t < US_PER_DAY.
Proof. unfold valid_time, us_of_time, US_PER_DAY. lia. Qed.

(** The local time is the clock reading moved by 5 h 30 min. *)
Lemma now_ist_dt_spec (utc : datetime) :
  valid_time (dt_time utc) → 0 < ordinal utc < MAXORDINAL →
  ∃ local, now_ist_dt utc = Ok local
           ∧ abs_us local = abs_us utc + 19800 * 1000000
           ∧ valid_time (dt_time local).
Proof.
  intros Hv Ho. pose proof (us_of_time_bound _ Hv) as Hb.
  unfold now_ist_dt, datetime_add, timedelta.
  set (total := ordinal utc * US_PER_DAY + us_of_time (dt_time utc)
                + (5 * 3600 + 30 * 60) * 1000000).
  assert (Hd : ordinal utc ≤ total / US_PER_DAY ≤ ordinal utc + 1).
  { unfold total, US_PER_DAY in *. Z.div_mod_to_equations. lia. }
  assert (Hm : 0 ≤ total mod US_PER_DAY < US_PER_DAY).
  { apply Z.mod_pos_bound. unfold US_PER_DAY. lia. }
  destruct (us_of_time_of_us _ Hm) as [Hvalid Hus].
  replace ((0 <? total / US_PER_DAY) && (total / US_PER_DAY <=? MAXORDINAL)) with true.
  2: { symmetry. apply andb_true_intro. split; [apply Z.ltb_lt | apply Z.leb_le]; lia. }
  eexists. split; [reflexivity|]. split; [|exact Hvalid].
  unfold abs_us. simpl. rewrite Hus.
  pose proof (Z.div_mod total US_PER_DAY ltac:(unfold US_PER_DAY; lia)) as Hdm.
  assert (Ht : total = ordinal utc * US_PER_DAY + us_of_time (dt_time utc)
                       + 19800 * 1000000) by (unfold total; lia).
  lia.
Qed.

(** C4. The gate reports open exactly when the local date is a Monday to
    Friday and the local time of day lies in [09:15, 15:30], both ends
    included, and the local time the program computes is the clock
    reading plus 5 h 30 min. It reports closed on every Saturday whatever
    the time of day, open on a Wednesday at 09:15 and at 10:00, and closed
    on a Wednesday at 16:00. *)
Theorem market_open_iff :
  (∀ dt, valid_time (dt_time dt) →
         (market_open dt = true ↔
          is_mon_fri (dow_of_ordinal (ordinal dt)) = true
          ∧ us_of_time (dtime_hm 9 15) ≤ us_of_time (dt_time dt) ≤ us_of_time (dtime_hm 15 30)))
  ∧ (∀ utc, valid_time (dt_time utc) → 0 < ordinal utc < MAXORDINAL →
            ∃ local, now_ist_dt utc = Ok local
                     ∧ abs_us local = abs_us utc + 19800 * 1000000
                     ∧ valid_time (dt_time local)
                     ∧ is_market_open_ist utc None = Ok (market_open local)
                     ∧ is_market_open_ist utc (Some local) = Ok (market_open local))
  ∧ (∀ dt, dow_of_ordinal (ordinal dt) = Saturday → market_open dt = false)
  ∧ (∀ dt, dow_of_ordinal (ordinal dt) = Wednesday →
           (dt_time dt = dtime_hm 9 15 → market_open dt = true)
           ∧ (dt_time dt = dtime_hm 10 0 → market_open dt = true)
           ∧ (dt_time dt = dtime_hm 16 0 → market_open dt = false)).
Proof.
  split; [|split; [|split]].
  - intros dt Hv. unfold market_open. rewrite weekday_mon_fri.
    rewrite time_ge_us, time_le_us by (done || apply valid_dtime_hm; lia).
    destruct (is_mon_fri _); simpl; [|split; [done | intros [? _]; done]].
    rewrite andb_true_iff, !Z.leb_le. split; [intros [? ?] | intros [_ [? ?]]]; done.
  - intros utc Hv Ho. destruct (now_ist_dt_spec utc Hv Ho) as (local & Hl & Habs & Hvl).
    exists local. unfold is_market_open_ist. rewrite Hl. done.
  - intros dt Hd. unfold market_open. rewrite weekday_mon_fri, Hd. done.
  - intros dt Hd. unfold market_open. rewrite weekday_mon_fri, Hd. simpl.
    repeat split; intros ->; reflexivity.
Qed.

Lemma market_open_iff_witness :
  valid_time (dt_time (datetime_of 2024 1 3 4 30 0 0))
  ∧ 0 < ordinal (datetime_of 2024 1 3 4 30 0 0) < MAXORDINAL
  ∧ (∃ local, now_ist_dt (datetime_of 2024 1 3 4 30 0 0) = Ok local
              ∧ abs_us local = abs_us (datetime_of 2024 1 3 4 30 0 0) + 19800 * 1000000
              ∧ valid_time (dt_time local)
              ∧ is_market_open_ist (datetime_of 2024 1 3 4 30 0 0) None
                = Ok (market_open local)
              ∧ is_market_open_ist (datetime_of 2024 1 3 4 30 0 0) (Some local)
                = Ok (market_open local))
  ∧ market_open (datetime_of 2024 1 6 10 0 0 0) = false
  ∧ market_open (datetime_of 2024 1 3 9 15 0 0) = true.
Proof.
  assert (Hv : valid_time (dt_time (datetime_of 2024 1 3 4 30 0 0)))
    by (unfold valid_time; simpl; lia).
  assert (Ho : 0 < ordinal (datetime_of 2024 1 3 4 30 0 0) < MAXORDINAL)
    by (vm_compute; split; reflexivity).
  assert (Hsat : dow_of_ordinal (ordinal (datetime_of 2024 1 6 10 0 0 0)) = Saturday)
    by (vm_compute; reflexivity).
  assert (Hwed : dow_of_ordinal (ordinal (datetime_of 2024 1 3 9 15 0 0)) = Wednesday)
    by (vm_compute; reflexivity).
  split; [exact Hv|]. split; [exact Ho|].
  split; [exact (proj1 (proj2 market_open_iff) _ Hv Ho)|].
  split; [exact (proj1 (proj2 (proj2 market_open_iff)) _ Hsat)|].
  exact (proj1 (proj2 (proj2 (proj2 market_open_iff)) _ Hwed) eq_refl).
Defined.

(** The gate on named dates: Wednesday 2024-01-03 and Saturday 2024-01-06,
    and both ends of the window to the microsecond. *)
Example market_open_cases :
  market_open (datetime_of 2024 1 3 10 0 0 0) = true
  ∧ market_open (datetime_of 2024 1 3 16 0 0 0) = false
  ∧ market_open (datetime_of 2024 1 3 9 15 0 0) = true
  ∧ market_open (datetime_of 2024 1 3 9 14 59 999999) = false
  ∧ market_open (datetime_of 2024 1 3 15 30 0 0) = true
  ∧ market_open (datetime_of 2024 1 3 15 30 0 1) = false
  ∧ market_open (datetime_of 2024 1 6 10 0 0 0) = false
  ∧ market_open (datetime_of 2024 1 7 10 0 0 0) = false
  ∧ now_ist_dt (datetime_of 2024 1 5 20 0 0 0) = Ok (datetime_of 2024 1 6 1 30 0 0).
Proof. vm_compute. done. Qed.

(** ** The trace monad *)

Lemma m_bind_lift_Ok {A B} (a : A) (f : A → M B) : m_bind (lift (Ok a)) f = f a.
Proof. unfold m_bind, lift. by destruct (f a). Qed.

Lemma m_bind_lift_Raise {A B} (e : exn) (f : A → M B) :
  m_bind (lift (Raise e)) f = (Raise e, []).
Proof. reflexivity. Qed.

(** ** Fetch and retry *)

Lemma try_attempt_failed (o : http_outcome) :
  attempt_failed o → ∃ lvl fmt, try_attempt o = (None, [EvLog lvl fmt]).
Proof.
  destruct o as [|code text body]; simpl; [by eexists _, _|].
  intros H. destruct (Z.eqb_spec code 200) as [->|]; [|by eexists _, _].
  destruct H as [H|[e ->]]; [done|]. simpl. by eexists _, _.
Qed.

(** When every attempt fails, the loop makes one request per attempt
    number and sleeps after each of them, the last one included. *)
Lemma fetch_loop_all_failed (server : Z → http_outcome) (size timeout : Z)
    (attempts : list Z) :
  (∀ n, attempt_failed (server n)) →
  ∃ tr, fetch_loop server size timeout attempts = (JList [], tr)
        ∧ posts_of tr = map (λ _, (SCREENER_URL, size, timeout)) attempts
        ∧ sleeps_of tr = map (λ a, ((3 # 2) * inject_Z a)%Q) attempts
        ∧ Forall (λ ev, is_render ev = false ∧ is_mail_event ev = false) tr.
Proof.
  intros Hfail. induction attempts as [|a attempts IH]; simpl.
  - exists []. repeat split; constructor.
  - destruct (try_attempt_failed _ (Hfail a)) as (lvl & fmt & ->).
    destruct IH as (tr & -> & Hposts & Hsleeps & Hall).
    eexists. split; [reflexivity|]. simpl.
    unfold posts_of, sleeps_of in *. simpl. rewrite Hposts, Hsleeps.
    repeat split. repeat (constructor; [done|]). done.
Qed.

(** C3, as the code behaves. With [retries = 3] and every attempt
    failing, the fetcher returns an empty list after exactly 3 requests,
    but it sleeps three times, not two: 1.5 s and 3.0 s between the
    attempts and 4.5 s more after the last attempt, just before it
    returns. The sleep after attempt [k] lasts 1.5 × k seconds. *)
Theorem fetch_three_failures_trace (server : Z → http_outcome) (size timeout : Z) :
  (∀ n, attempt_failed (server n)) →
  ∃ tr, yahoo_screener_most_active_india server size 3 timeout = (JList [], tr)
        ∧ posts_of tr = [(SCREENER_URL, size, timeout); (SCREENER_URL, size, timeout);
                         (SCREENER_URL, size, timeout)]
        ∧ Forall2 Qeq (sleeps_of tr) [3 # 2; 3 # 1; 9 # 2]%Q
        ∧ length (sleeps_of tr) = 3%nat
        ∧ ∃ tr' s, tr = tr' ++ [EvSleep s] ∧ Qeq s (9 # 2).
Proof.
  intros Hfail. unfold yahoo_screener_most_active_india.
  change (py_range 1 (3 + 1)) with [1; 2; 3]. simpl.
  destruct (try_attempt_failed _ (Hfail 1)) as (l1 & f1 & ->).
  destruct (try_attempt_failed _ (Hfail 2)) as (l2 & f2 & ->).
  destruct (try_attempt_failed _ (Hfail 3)) as (l3 & f3 & ->).
  eexists. split; [reflexivity|]. simpl.
  split; [reflexivity|]. split; [repeat constructor|]. split; [reflexivity|].
  eexists [_; _; _; _; _; _; _; _], _. split; [reflexivity|]. reflexivity.
Qed.

Lemma fetch_three_failures_trace_witness :
  ∃ tr, yahoo_screener_most_active_india (λ _, Response 500 "" (Raise ValueError)) 60 3 15
        = (JList [], tr)
        ∧ posts_of tr = [(SCREENER_URL, 60, 15); (SCREENER_URL, 60, 15); (SCREENER_URL, 60, 15)]
        ∧ Forall2 Qeq (sleeps_of tr) [3 # 2; 3 # 1; 9 # 2]%Q
        ∧ length (sleeps_of tr) = 3%nat
        ∧ ∃ tr' s, tr = tr' ++ [EvSleep s] ∧ Qeq s (9 # 2).
Proof.
  apply (fetch_three_failures_trace (λ _, Response 500 "" (Raise ValueError)) 60 15).
  intros n. simpl. left. discriminate.
Defined.

(** The run of the fetcher against a server that always answers 500. *)
Example fetch_three_times_500 :
  yahoo_screener_most_active_india (λ _, Response 500 "" (Raise ValueError)) 60 3 15
  = (JList [],
     [EvPost SCREENER_URL 60 15; EvLog WARNING "Yahoo Screener HTTP %s: %s";
      EvSleep ((3 # 2) * inject_Z 1);
      EvPost SCREENER_URL 60 15; EvLog WARNING "Yahoo Screener HTTP %s: %s";
      EvSleep ((3 # 2) * inject_Z 2);
      EvPost SCREENER_URL 60 15; EvLog WARNING "Yahoo Screener HTTP %s: %s";
      EvSleep ((3 # 2) * inject_Z 3)]).
Proof. reflexivity. Qed.

(** ** Orchestration *)

(** C6. When every fetch attempt fails, the fetcher returns the empty
    list (it raises nothing), for any number of retries; and [main],
    once past the market-hours gate, logs a warning and returns normally:
    its trace is the fetcher's followed by that one warning, with no
    render and no mail event in it. *)
Theorem all_attempts_fail_nothing_to_report (lib : pylib) (cfg : config) (w : world) :
  (∀ n, attempt_failed (server w n)) →
  (∀ size retries timeout,
     (yahoo_screener_most_active_india (server w) size retries timeout).1 = JList [])
  ∧ ∀ ist_dt,
      now_ist_dt (utcnow w) = Ok ist_dt →
      ENFORCE_MARKET_HOURS cfg && negb (market_open ist_dt) = false →
      ∃ tr, yahoo_screener_most_active_india (server w) (Z.max (TOP_N cfg * 6) 60) 3 15
            = (JList [], tr)
            ∧ main lib cfg w
              = (Ok tt, tr ++ [EvLog WARNING "No quotes fetched; aborting email."])
            ∧ Forall (λ ev, is_render ev = false ∧ is_mail_event ev = false)
                (tr ++ [EvLog WARNING "No quotes fetched; aborting email."]).
Proof.
  intros Hfail. split.
  - intros size retries timeout. unfold yahoo_screener_most_active_india.
    by destruct (fetch_loop_all_failed (server w) size timeout
                   (py_range 1 (retries + 1)) Hfail) as (tr & -> & _).
  - intros ist_dt Hnow Hgate.
    destruct (fetch_loop_all_failed (server w) (Z.max (TOP_N cfg * 6) 60) 15
                (py_range 1 (3 + 1)) Hfail) as (tr & Htr & _ & _ & Hall).
    exists tr. split; [exact Htr|]. split.
    + unfold main. rewrite Hnow, m_bind_lift_Ok.
      change (is_market_open_ist (utcnow w) (Some ist_dt)) with (Ok (market_open ist_dt)).
      rewrite m_bind_lift_Ok, Hgate.
      unfold yahoo_screener_most_active_india. rewrite Htr. reflexivity.
    + apply Forall_app. split; [exact Hall|]. by repeat constructor.
Qed.

Lemma all_attempts_fail_nothing_to_report_witness :
  ∃ tr, main (mk_pylib (λ _, Ok "0.00") (λ _, "") (λ _, "2024-01-03 10:00"))
          (config_of_env ∅ 587 [] 10 true "INFO")
          (mk_world (datetime_of 2024 1 3 4 30 0 0)
             (λ _, Response 500 "" (Raise ValueError)) Relay_ok)
        = (Ok tt, tr ++ [EvLog WARNING "No quotes fetched; aborting email."])
        ∧ Forall (λ ev, is_render ev = false ∧ is_mail_event ev = false)
            (tr ++ [EvLog WARNING "No quotes fetched; aborting email."]).
Proof.
  assert (Hfail : ∀ n, attempt_failed
                         (server (mk_world (datetime_of 2024 1 3 4 30 0 0)
                                    (λ _, Response 500 "" (Raise ValueError)) Relay_ok) n))
    by (intros n; simpl; left; discriminate).
  destruct (proj2 (all_attempts_fail_nothing_to_report
                     (mk_pylib (λ _, Ok "0.00") (λ _, "") (λ _, "2024-01-03 10:00"))
                     (config_of_env ∅ 587 [] 10 true "INFO") _ Hfail)
              (datetime_of 2024 1 3 10 0 0 0) eq_refl eq_refl)
    as (tr & _ & Hmain & Hall).
  exists tr. exact (conj Hmain Hall).
Defined.

(** C8. With market-hours enforcement on and the gate closed at the
    computed local time, [main] logs one message and returns normally:
    its whole trace is that log call, so it makes no request, renders
    nothing and opens no mail session. *)
Theorem main_skips_when_closed (lib : pylib) (cfg : config) (w : world)
    (ist_dt : datetime) :
  ENFORCE_MARKET_HOURS cfg = true →
  now_ist_dt (utcnow w) = Ok ist_dt →
  is_market_open_ist (utcnow w) (Some ist_dt) = Ok false →
  main lib cfg w
  = (Ok tt, [EvLog INFO "Outside Indian market hours. Skipping send. Now IST: %s"]).
Proof.
  intros Henf Hnow Hgate. unfold main.
  rewrite Hnow, m_bind_lift_Ok, Hgate, m_bind_lift_Ok, Henf. reflexivity.
Qed.

Lemma main_skips_when_closed_witness :
  main (mk_pylib (λ _, Ok "0.00") (λ _, "") (λ _, "2024-01-06 10:00"))
    (config_of_env ∅ 587 [] 10 true "INFO")
    (mk_world (datetime_of 2024 1 6 4 30 0 0) (λ _, Transport_error) Relay_ok)
  = (Ok tt, [EvLog INFO "Outside Indian market hours. Skipping send. Now IST: %s"]).
Proof.
  apply (main_skips_when_closed _ _ _ (datetime_of 2024 1 6 10 0 0 0));
    vm_compute; reflexivity.
Defined.

(** With enforcement off the same closed gate does not stop the run: the
    request is made. *)
Example main_runs_when_not_enforced :
  (main (mk_pylib (λ _, Ok "0.00") (λ _, "") (λ _, "2024-01-06 10:00"))
     (config_of_env ∅ 587 [] 10 false "INFO")
     (mk_world (datetime_of 2024 1 6 4 30 0 0) (λ _, Transport_error) Relay_ok)).2 !! 0%nat
  = Some (EvPost SCREENER_URL 60 15).
Proof. reflexivity. Qed.

(** ** Mail dispatcher *)

Lemma config_missing_incomplete (cfg : config) :
  config_missing cfg → config_complete cfg = false.
Proof.
  unfold config_missing, config_complete.
  intros [H|[H|[H|[H|[H|H]]]]]; rewrite H; simpl;
    rewrite ?andb_false_r; reflexivity.
Qed.

Lemma config_complete_not_missing (cfg : config) :
  config_complete cfg = true → ¬ config_missing cfg.
Proof.
  intros Hc Hm. apply config_missing_incomplete in Hm. congruence.
Qed.

(** C5. Whenever the relay host, the port, the username, the password,
    the sender address or the recipient list is empty (0 for the port),
    [send_email] raises the configuration error and its trace is empty: it
    has connected to nothing. In particular, an environment without
    [SMTP_PASS] gives this error whatever else is configured. With a
    complete configuration the first thing it does is connect. *)
Theorem send_email_config_error :
  (∀ cfg relay subject html_body,
     config_missing cfg →
     send_email cfg relay subject html_body = (Raise (RuntimeError CONFIG_MISSING), []))
  ∧ (∀ env smtp_port to_emails top_n enforce log_level relay subject html_body,
       env !! "SMTP_PASS" = None →
       send_email (config_of_env env smtp_port to_emails top_n enforce log_level)
         relay subject html_body
       = (Raise (RuntimeError CONFIG_MISSING), []))
  ∧ (∀ cfg relay subject html_body,
       config_complete cfg = true →
       ∃ r tr, send_email cfg relay subject html_body
               = (r, EvSmtpConnect (SMTP_HOST cfg) (SMTP_PORT cfg) :: tr)).
Proof.
  assert (Hmiss : ∀ cfg relay subject html_body,
            config_missing cfg →
            send_email cfg relay subject html_body
            = (Raise (RuntimeError CONFIG_MISSING), [])).
  { intros cfg relay subject html_body Hm. unfold send_email.
    by rewrite (config_missing_incomplete cfg Hm). }
  split; [exact Hmiss|]. split.
  - intros env smtp_port to_emails top_n enforce log_level relay subject html_body Henv.
    apply Hmiss. unfold config_missing, config_of_env, getenv. simpl.
    rewrite Henv. simpl. tauto.
  - intros cfg relay subject html_body Hc. unfold send_email. rewrite Hc. simpl.
    destruct relay; simpl; by eexists _, _.
Qed.

Lemma send_email_config_error_witness :
  send_email
    (config_of_env (list_to_map [("SMTP_HOST", "smtp.example.org"); ("SMTP_USER", "bot");
                                 ("FROM_EMAIL", "bot@example.org")])
       587 ["desk@example.org"] 10 true "INFO")
    Relay_ok "subject" "<html></html>"
  = (Raise (RuntimeError CONFIG_MISSING), []).
Proof.
  apply (proj1 (proj2 send_email_config_error)).
  vm_compute. reflexivity.
Defined.

(** The same configuration with [SMTP_PASS] set opens a session. *)
Example send_email_complete_config :
  send_email
    (config_of_env (list_to_map [("SMTP_HOST", "smtp.example.org"); ("SMTP_USER", "bot");
                                 ("SMTP_PASS", "secret")])
       587 ["desk@example.org"] 10 true "INFO")
    Relay_ok "subject" "<html></html>"
  = (Ok tt,
     [EvSmtpConnect "smtp.example.org" 587; EvStartTls; EvLogin "bot" "secret";
      EvSendmail "bot" ["desk@example.org"] "subject" "<html></html>"; EvSmtpQuit;
      EvLog INFO "Email sent to: %s"]).
Proof. vm_compute. reflexivity. Qed.

(** ** Report renderer *)

Lemma tbl_row_starts (lib : pylib) (i : Z) (r : row) (line : string) :
  tbl_row lib i r = Ok line →
  starts_with line ("<tr><td>" +:+ str_of_Z i +:+ "</td>").
Proof.
  unfold tbl_row. intros (price & _ & H)%bind_Ok_inv.
  apply bind_Ok_inv in H as (chg & _ & H).
  apply bind_Ok_inv in H as (chg_pct & _ & H). injection H as <-.
  eexists ("<td>" +:+ _). rewrite !str_app_assoc. reflexivity.
Qed.

Lemma tbl_row_total (lib : pylib) (i : Z) (r : row) :
  row_formats lib r → is_Ok (tbl_row lib i r).
Proof.
  intros ([p Hp] & [c Hc] & [cp Hcp]). unfold tbl_row. rewrite Hp, Hc, Hcp.
  simpl. by eexists.
Qed.

(** The loop appends one line per row, numbered from [i] on. *)
Lemma tbl_loop_spec (lib : pylib) (rows : list row) :
  ∀ (i : Z) (body s : string),
    tbl_loop lib i rows body = Ok s →
    ∃ lines, length lines = length rows
             ∧ (∀ (k : nat) r, rows !! k = Some r →
                  ∃ line, lines !! k = Some line
                          ∧ tbl_row lib (i + Z.of_nat k) r = Ok line)
             ∧ s = body +:+ str_concat lines.
Proof.
  induction rows as [|r rows IH]; simpl; intros i body s H.
  - injection H as <-. exists []. repeat split; [done|].
    simpl. by rewrite str_app_nil_r.
  - apply bind_Ok_inv in H as (line & Hline & H).
    destruct (IH _ _ _ H) as (lines & Hlen & Hlk & ->).
    exists (line :: lines). split; [simpl; by rewrite Hlen|]. split.
    + intros [|k] r' Hk; simpl in Hk.
      * injection Hk as <-. exists line. by rewrite Z.add_0_r.
      * destruct (Hlk k r' Hk) as (line' & ? & Hrow). exists line'. split; [done|].
        replace (i + Z.of_nat (S k)) with (i + 1 + Z.of_nat k) by lia. done.
    + simpl. by rewrite str_app_assoc.
Qed.

Lemma tbl_loop_total (lib : pylib) (rows : list row) :
  Forall (row_formats lib) rows →
  ∀ (i : Z) (body : string), is_Ok (tbl_loop lib i rows body).
Proof.
  induction 1 as [|r rows Hr _ IH]; simpl; intros i body; [by eexists|].
  destruct (tbl_row_total lib i r Hr) as [line ->]. simpl. apply IH.
Qed.

Lemma email_frame_contains_nse (t : string) (n1 : nat) (x : string) (n2 : nat) (y : string) :
  contains (email_frame t n1 x n2 y) x.
Proof.
  unfold email_frame, contains.
  exists (nl +:+ "    <html><body>" +:+ nl
          +:+ "      <p><strong>Top " +:+ str_of_Z (Z.of_nat n1)
          +:+ " Most Active (by volume) — NSE</strong><br/>" +:+ nl
          +:+ "      <em>Run at " +:+ t +:+ " IST</em></p>" +:+ nl
          +:+ "      ").
  eexists. rewrite !str_app_assoc. reflexivity.
Qed.

Lemma email_frame_contains_bse (t : string) (n1 : nat) (x : string) (n2 : nat) (y : string) :
  contains (email_frame t n1 x n2 y) y.
Proof.
  unfold email_frame, contains.
  exists (nl +:+ "    <html><body>" +:+ nl
          +:+ "      <p><strong>Top " +:+ str_of_Z (Z.of_nat n1)
          +:+ " Most Active (by volume) — NSE</strong><br/>" +:+ nl
          +:+ "      <em>Run at " +:+ t +:+ " IST</em></p>" +:+ nl
          +:+ "      " +:+ x +:+ nl
          +:+ "      <br/>" +:+ nl
          +:+ "      <p><strong>Top " +:+ str_of_Z (Z.of_nat n2)
          +:+ " Most Active (by volume) — BSE</strong></p>" +:+ nl
          +:+ "      ").
  eexists. rewrite !str_app_assoc. reflexivity.
Qed.

(** C9. For every timestamp label and ranked lists: an empty ranked list
    renders as the notice "No data for <market>." and the document has
    that notice, which holds no table, in the place of the market's
    table; a non-empty list of [k] rows renders as a heading and a table
    of the header line and [k] lines that begin with the cells 1, 2, ..,
    [k]; rendering succeeds when the numbers of every row format. *)
Theorem render_no_data_and_numbering (lib : pylib) :
  (∀ title, tbl lib [] title = Ok ("<p>No data for " +:+ title +:+ ".</p>"))
  ∧ (∀ t bse doc,
       build_email_html lib t [] bse = Ok doc →
       contains doc "<p>No data for NSE (.NS).</p>"
       ∧ ∃ bse_tbl, tbl lib bse "BSE (.BO)" = Ok bse_tbl
                    ∧ doc = email_frame t 0 "<p>No data for NSE (.NS).</p>"
                              (length bse) bse_tbl)
  ∧ (∀ t nse doc,
       build_email_html lib t nse [] = Ok doc →
       contains doc "<p>No data for BSE (.BO).</p>"
       ∧ ∃ nse_tbl, tbl lib nse "NSE (.NS)" = Ok nse_tbl
                    ∧ doc = email_frame t (length nse) nse_tbl
                              0 "<p>No data for BSE (.BO).</p>")
  ∧ (index 0 "<table" "<p>No data for NSE (.NS).</p>" = None
     ∧ index 0 "<table" "<p>No data for BSE (.BO).</p>" = None)
  ∧ (∀ rows title s,
       rows ≠ [] → tbl lib rows title = Ok s →
       ∃ lines,
         length lines = length rows
         ∧ (∀ (k : nat) r, rows !! k = Some r →
              ∃ line, lines !! k = Some line
                      ∧ tbl_row lib (Z.of_nat k + 1) r = Ok line
                      ∧ starts_with line
                          ("<tr><td>" +:+ str_of_Z (Z.of_nat k + 1) +:+ "</td>"))
         ∧ s = "<h3>" +:+ title
               +:+ "</h3><table border='1' cellspacing='0' cellpadding='6'>"
               +:+ TABLE_HEAD +:+ str_concat lines +:+ "</table>")
  ∧ (∀ t nse bse,
       Forall (row_formats lib) nse → Forall (row_formats lib) bse →
       is_Ok (build_email_html lib t nse bse)).
Proof.
  assert (Htotal : ∀ rows title, Forall (row_formats lib) rows → is_Ok (tbl lib rows title)).
  { intros rows title Hrows. unfold tbl. destruct rows as [|r rows]; [by eexists|].
    destruct (tbl_loop_total lib _ Hrows 1 "") as [body ->]. simpl. by eexists. }
  split; [done|]. split; [|split; [|split; [|split]]].
  - intros t bse doc H. unfold build_email_html in H. simpl in H.
    apply bind_Ok_inv in H as (bse_tbl & Hb & H). injection H as <-.
    split; [apply email_frame_contains_nse|]. by exists bse_tbl.
  - intros t nse doc H. unfold build_email_html in H.
    apply bind_Ok_inv in H as (nse_tbl & Hn & H). simpl in H.
    injection H as <-.
    split; [apply email_frame_contains_bse|]. by exists nse_tbl.
  - split; vm_compute; reflexivity.
  - intros rows title s Hne H. unfold tbl in H.
    destruct rows as [|r0 rows0]; [done|].
    apply bind_Ok_inv in H as (body & Hbody & H). injection H as <-.
    destruct (tbl_loop_spec lib _ _ _ _ Hbody) as (lines & Hlen & Hlk & ->).
    exists lines. split; [done|]. split; [|by rewrite str_app_nil_l].
    intros k r Hk. destruct (Hlk k r Hk) as (line & Hl & Hrow).
    rewrite (Z.add_comm 1) in Hrow. exists line. split; [done|]. split; [done|].
    by eapply tbl_row_starts.
  - intros t nse bse Hn Hb. unfold build_email_html.
    destruct (Htotal nse "NSE (.NS)" Hn) as [x ->].
    destruct (Htotal bse "BSE (.BO)" Hb) as [y ->]. simpl. by eexists.
Qed.

Lemma render_no_data_and_numbering_witness :
  contains
    (email_frame "2024-01-03 10:00" 0 "<p>No data for NSE (.NS).</p>"
       0 "<p>No data for BSE (.BO).</p>")
    "<p>No data for NSE (.NS).</p>"
  ∧ is_Ok (build_email_html (mk_pylib (λ _, Ok "0.00") (λ _, "") (λ _, "2024-01-03 10:00"))
             "2024-01-03 10:00"
             [mk_row "TCS.NS" (JStr "Tata") 500 (JInt 1) JNull JNull] []).
Proof.
  split.
  - apply (proj1 (proj1 (proj2 (render_no_data_and_numbering
                                  (mk_pylib (λ _, Ok "0.00") (λ _, "")
                                     (λ _, "2024-01-03 10:00"))))
                    "2024-01-03 10:00" [] _ eq_refl)).
  - apply (proj2 (proj2 (proj2 (proj2 (proj2 (render_no_data_and_numbering
                                                (mk_pylib (λ _, Ok "0.00") (λ _, "")
                                                   (λ _, "2024-01-03 10:00")))))))).
    + repeat constructor; by eexists.
    + constructor.
Defined.

(** A rendered report: no NSE rows, two BSE rows. *)
Example build_email_html_sample :
  build_email_html (mk_pylib (λ _, Ok "0.00") (λ _, "") (λ _, "")) "2024-01-03 10:00" []
    [mk_row "X.BO" (JStr "X Ltd") 1234567 JNull (JInt 1) JNull;
     mk_row "Y.BO" (JStr "Y Ltd") 100 JNull JNull JNull]
  = Ok (email_frame "2024-01-03 10:00" 0 "<p>No data for NSE (.NS).</p>" 2
          ("<h3>BSE (.BO)</h3><table border='1' cellspacing='0' cellpadding='6'>"
           +:+ TABLE_HEAD
           +:+ "<tr><td>1</td><td>X.BO</td><td>X Ltd</td><td>-</td><td>0.00</td><td>-</td><td>1,234,567</td></tr>"
           +:+ "<tr><td>2</td><td>Y.BO</td><td>Y Ltd</td><td>-</td><td>-</td><td>-</td><td>100</td></tr>"
           +:+ "</table>")).
Proof. vm_compute. reflexivity. Qed.


(** * Further properties of the code *)

(** ** Ranker *)

Lemma select_top_inv (quotes : list json) (suffix : string) (top_n : Z) (out : list row) :
  select_top_by_exchange quotes suffix top_n = Ok out →
  ∃ rows, collect_rows quotes suffix = Ok rows
          ∧ out = py_slice_to (sort_key_reverse r_volume rows) top_n.
Proof.
  unfold select_top_by_exchange. intros (rows & Hrows & H)%bind_Ok_inv.
  injection H as <-. by exists rows.
Qed.

Lemma py_slice_to_elem {A} (l : list A) (n : Z) (x : A) : x ∈ py_slice_to l n → x ∈ l.
Proof.
  unfold py_slice_to. destruct (0 <=? n); intros (i & Hi & _)%elem_of_take;
    by eapply list_elem_of_lookup_2.
Qed.

Lemma select_top_elem_rows (quotes : list json) (suffix : string) (top_n : Z)
    (out rows : list row) (r : row) :
  select_top_by_exchange quotes suffix top_n = Ok out →
  collect_rows quotes suffix = Ok rows → r ∈ out → r ∈ rows.
Proof.
  intros (rows' & Hrows' & ->)%select_top_inv Hrows Hr.
  assert (rows' = rows) as -> by congruence.
  apply py_slice_to_elem in Hr.
  by rewrite (sort_key_reverse_Permutation r_volume rows) in Hr.
Qed.

Lemma select_top_elem_quote (quotes : list json) (suffix : string) (top_n : Z)
    (out : list row) (r : row) :
  select_top_by_exchange quotes suffix top_n = Ok out → r ∈ out →
  ∃ q, q ∈ quotes ∧ row_of_quote q suffix = Ok (Some r).
Proof.
  intros Hsel Hr. destruct (select_top_inv _ _ _ _ Hsel) as (rows & Hrows & _).
  eapply collect_rows_elem; [exact Hrows|]. by eapply select_top_elem_rows.
Qed.

Lemma strongly_sorted_app_elem {A} (R : A → A → Prop) (l1 l2 : list A) (x1 x2 : A) :
  StronglySorted R (l1 ++ l2) → x1 ∈ l1 → x2 ∈ l2 → R x1 x2.
Proof.
  induction l1 as [|y l1 IH]; simpl; intros Hs H1 H2; [by apply elem_of_nil in H1|].
  apply StronglySorted_inv in Hs as [Hs Hy].
  apply elem_of_cons in H1 as [->|H1]; [|by apply IH].
  rewrite Forall_forall in Hy. apply Hy, elem_of_app. by right.
Qed.

Lemma sort_key_reverse_length {A} (key : A → Z) (l : list A) :
  length (sort_key_reverse key l) = length l.
Proof. apply Permutation_length, sort_key_reverse_Permutation. Qed.

(** X1. The rows returned are the top ones: the kept rows split into the
    returned rows and the rest, and no row of the rest has a larger
    volume than a returned row. *)
Theorem select_top_dominates (quotes : list json) (suffix : string) (top_n : Z)
    (out rows : list row) :
  0 ≤ top_n →
  select_top_by_exchange quotes suffix top_n = Ok out →
  collect_rows quotes suffix = Ok rows →
  ∃ rest, rows ≡ₚ out ++ rest
          ∧ ∀ a b, a ∈ out → b ∈ rest → r_volume b ≤ r_volume a.
Proof.
  intros Hn (rows' & Hrows' & ->)%select_top_inv Hrows.
  assert (rows' = rows) as -> by congruence.
  unfold py_slice_to. destruct (Z.leb_spec 0 top_n) as [_|]; [|lia].
  exists (drop (Z.to_nat top_n) (sort_key_reverse r_volume rows)). split.
  - by rewrite take_drop, sort_key_reverse_Permutation.
  - intros a b Ha Hb.
    apply (strongly_sorted_app_elem (desc r_volume)
             (take (Z.to_nat top_n) (sort_key_reverse r_volume rows))
             (drop (Z.to_nat top_n) (sort_key_reverse r_volume rows)) a b); [|done..].
    rewrite take_drop. apply sort_key_reverse_sorted.
Qed.

Lemma select_top_dominates_witness :
  ∃ rest,
    [mk_row "INFY.NS" (JStr "INFY.NS") 900 JNull JNull JNull;
     mk_row "TCS.NS" (JStr "TCS.NS") 500 JNull JNull JNull;
     mk_row "SBIN.NS" (JStr "SBIN.NS") 300 JNull JNull JNull]
    ≡ₚ [mk_row "INFY.NS" (JStr "INFY.NS") 900 JNull JNull JNull] ++ rest
    ∧ ∀ a b, a ∈ [mk_row "INFY.NS" (JStr "INFY.NS") 900 JNull JNull JNull] → b ∈ rest →
             r_volume b ≤ r_volume a.
Proof.
  assert (Hn : 0 ≤ 1) by lia.
  assert (Hsel : select_top_by_exchange
                   [quote_sv "INFY.NS" 900; quote_sv "TCS.NS" 500; quote_sv "SBIN.NS" 300]
                   ".NS" 1
                 = Ok [mk_row "INFY.NS" (JStr "INFY.NS") 900 JNull JNull JNull])
    by (vm_compute; reflexivity).
  assert (Hrows : collect_rows
                    [quote_sv "INFY.NS" 900; quote_sv "TCS.NS" 500; quote_sv "SBIN.NS" 300]
                    ".NS"
                  = Ok [mk_row "INFY.NS" (JStr "INFY.NS") 900 JNull JNull JNull;
                        mk_row "TCS.NS" (JStr "TCS.NS") 500 JNull JNull JNull;
                        mk_row "SBIN.NS" (JStr "SBIN.NS") 300 JNull JNull JNull])
    by (vm_compute; reflexivity).
  pose proof (select_top_dominates _ _ _ _ _ Hn Hsel Hrows) as H.
  exact H.
Defined.

(** X2. The list returned has exactly min(top-N, number of kept rows)
    rows, and when top-N is at least the number of kept rows it holds
    every kept row. *)
Theorem select_top_length (quotes : list json) (suffix : string) (top_n : Z)
    (out rows : list row) :
  0 ≤ top_n →
  select_top_by_exchange quotes suffix top_n = Ok out →
  collect_rows quotes suffix = Ok rows →
  length out = (Z.to_nat top_n `min` length rows)%nat
  ∧ (Z.of_nat (length rows) ≤ top_n → out ≡ₚ rows).
Proof.
  intros Hn (rows' & Hrows' & ->)%select_top_inv Hrows.
  assert (rows' = rows) as -> by congruence.
  unfold py_slice_to. destruct (Z.leb_spec 0 top_n) as [_|]; [|lia].
  split.
  - by rewrite length_take, sort_key_reverse_length.
  - intros Hle. rewrite take_ge by (rewrite sort_key_reverse_length; lia).
    apply sort_key_reverse_Permutation.
Qed.

Lemma select_top_length_witness :
  length [mk_row "INFY.NS" (JStr "INFY.NS") 900 JNull JNull JNull;
          mk_row "TCS.NS" (JStr "TCS.NS") 500 JNull JNull JNull] = 2%nat.
Proof.
  assert (Hn : 0 ≤ 2) by lia.
  assert (Hsel : select_top_by_exchange sample_quotes ".NS" 2
                 = Ok [mk_row "INFY.NS" (JStr "INFY.NS") 900 JNull JNull JNull;
                       mk_row "TCS.NS" (JStr "TCS.NS") 500 JNull JNull JNull])
    by (vm_compute; reflexivity).
  assert (Hrows : collect_rows sample_quotes ".NS"
                  = Ok [mk_row "INFY.NS" (JStr "INFY.NS") 900 JNull JNull JNull;
                        mk_row "TCS.NS" (JStr "TCS.NS") 500 JNull JNull JNull;
                        mk_row "SBIN.NS" (JStr "SBIN.NS") 500 JNull JNull JNull])
    by (vm_compute; reflexivity).
  exact (proj1 (select_top_length _ _ _ _ _ Hn Hsel Hrows)).
Defined.

(** X3. Asking for more rows only extends the list: for 0 <= n <= m the
    top-n list is an initial segment of the top-m list, and whether the
    call raises does not depend on top-N. *)
Theorem select_top_prefix_monotone (quotes : list json) (suffix : string) (n m : Z) :
  0 ≤ n ≤ m →
  (∀ o1 o2,
      select_top_by_exchange quotes suffix n = Ok o1 →
      select_top_by_exchange quotes suffix m = Ok o2 →
      o1 `prefix_of` o2)
  ∧ (∀ e, select_top_by_exchange quotes suffix n = Raise e
          ↔ select_top_by_exchange quotes suffix m = Raise e).
Proof.
  intros Hnm. split.
  - intros o1 o2 (rows & Hrows & ->)%select_top_inv (rows' & Hrows' & ->)%select_top_inv.
    assert (rows' = rows) as -> by congruence.
    unfold py_slice_to.
    destruct (Z.leb_spec 0 n) as [_|]; [|lia]. destruct (Z.leb_spec 0 m) as [_|]; [|lia].
    replace (Z.to_nat n) with (Z.to_nat n `min` Z.to_nat m)%nat by lia.
    rewrite <- take_take. apply prefix_take.
  - intros e. unfold select_top_by_exchange.
    destruct (collect_rows quotes suffix); simpl; [split; discriminate | done].
Qed.

Lemma select_top_prefix_monotone_witness :
  [mk_row "INFY.NS" (JStr "INFY.NS") 900 JNull JNull JNull]
  `prefix_of` [mk_row "INFY.NS" (JStr "INFY.NS") 900 JNull JNull JNull;
               mk_row "TCS.NS" (JStr "TCS.NS") 500 JNull JNull JNull].
Proof.
  assert (Hnm : 0 ≤ 1 ≤ 2) by lia.
  apply (proj1 (select_top_prefix_monotone sample_quotes ".NS" 1 2 Hnm));
    vm_compute; reflexivity.
Defined.

Lemma endswith_same_length (s a b : string) :
  String.length a = String.length b →
  endswith s a = true → endswith s b = true → a = b.
Proof.
  unfold endswith. intros Hlen [_ Ha]%andb_prop [_ Hb]%andb_prop.
  apply String.eqb_eq in Ha, Hb. rewrite Hlen in Ha. congruence.
Qed.

Lemma select_top_row_endswith (quotes : list json) (suffix : string) (top_n : Z)
    (out : list row) (r : row) :
  select_top_by_exchange quotes suffix top_n = Ok out → r ∈ out →
  endswith (r_symbol r) suffix = true.
Proof.
  intros Hsel Hr. destruct (select_top_elem_quote _ _ _ _ _ Hsel Hr) as (q & _ & Hq).
  by destruct (row_of_quote_Some _ _ _ Hq) as (d & _ & _ & He & _).
Qed.

(** X4. The lists of two markets never share a symbol: for two different
    suffixes of the same length, as ".NS" and ".BO" are, no row of one
    ranked list has the symbol of a row of the other. *)
Theorem select_top_markets_disjoint (quotes : list json) (s1 s2 : string) (n1 n2 : Z)
    (out1 out2 : list row) :
  String.length s1 = String.length s2 → s1 ≠ s2 →
  select_top_by_exchange quotes s1 n1 = Ok out1 →
  select_top_by_exchange quotes s2 n2 = Ok out2 →
  ∀ r1 r2, r1 ∈ out1 → r2 ∈ out2 → r_symbol r1 ≠ r_symbol r2.
Proof.
  intros Hlen Hne H1 H2 r1 r2 Hr1 Hr2 Heq.
  pose proof (select_top_row_endswith _ _ _ _ _ H1 Hr1) as E1.
  pose proof (select_top_row_endswith _ _ _ _ _ H2 Hr2) as E2.
  rewrite Heq in E1. apply Hne. by eapply endswith_same_length.
Qed.

Lemma select_top_markets_disjoint_witness :
  Forall (λ r1, Forall (λ r2, r_symbol r1 ≠ r_symbol r2)
                  [mk_row "X.BO" (JStr "X.BO") 100 JNull JNull JNull])
    [mk_row "INFY.NS" (JStr "INFY.NS") 900 JNull JNull JNull;
     mk_row "TCS.NS" (JStr "TCS.NS") 500 JNull JNull JNull].
Proof.
  assert (Hlen : String.length ".NS" = String.length ".BO") by reflexivity.
  assert (Hne : ".NS" ≠ ".BO") by discriminate.
  assert (H1 : select_top_by_exchange sample_quotes ".NS" 2
               = Ok [mk_row "INFY.NS" (JStr "INFY.NS") 900 JNull JNull JNull;
                     mk_row "TCS.NS" (JStr "TCS.NS") 500 JNull JNull JNull])
    by (vm_compute; reflexivity).
  assert (H2 : select_top_by_exchange sample_quotes ".BO" 2
               = Ok [mk_row "X.BO" (JStr "X.BO") 100 JNull JNull JNull])
    by (vm_compute; reflexivity).
  apply Forall_forall. intros r1 Hr1. apply Forall_forall. intros r2 Hr2.
  exact (select_top_markets_disjoint _ _ _ _ _ _ _ Hlen Hne H1 H2 r1 r2 Hr1 Hr2).
Defined.

Lemma number_or_none_spec (v : json) : none_or_number (number_or_none v).
Proof.
  unfold none_or_number, number_or_none.
  destruct (is_int_or_float v) eqn:E; [by right | by left].
Qed.

Lemma row_of_quote_fields (q : json) (suffix : string) (r : row) :
  row_of_quote q suffix = Ok (Some r) →
  ∃ d, q = JObj d
       ∧ r_name r = py_or (py_or (default JNull (d !! "shortName"))
                                 (default JNull (d !! "longName")))
                          (JStr (r_symbol r))
       ∧ r_price r = number_or_none (default JNull (d !! "regularMarketPrice"))
       ∧ r_change r = number_or_none (default JNull (d !! "regularMarketChange"))
       ∧ r_change_pct r
         = number_or_none (default JNull (d !! "regularMarketChangePercent")).
Proof.
  unfold row_of_quote. intros (sym & Hsym & H)%bind_Ok_inv.
  destruct sym as [| | | |s| |]; try discriminate.
  destruct q as [| | | | | |d]; try discriminate.
  destruct (endswith s suffix) eqn:He; simpl in H; [|discriminate].
  apply bind_Ok_inv in H as (vol & Hvol & H).
  injection H as <-. simpl. by exists d.
Qed.

(** X5. Every returned row is fit to render: its price, change and
    percentage change are each [None] or a number, never another value
    of the quote; and for a non-empty suffix its symbol is not empty and
    its name is truthy, the symbol standing in when the quote has no
    [shortName] and no [longName]. *)
Theorem select_top_row_fields (quotes : list json) (suffix : string) (top_n : Z)
    (out : list row) (r : row) :
  select_top_by_exchange quotes suffix top_n = Ok out → r ∈ out →
  none_or_number (r_price r) ∧ none_or_number (r_change r)
  ∧ none_or_number (r_change_pct r)
  ∧ (suffix ≠ "" → r_symbol r ≠ "" ∧ truthy (r_name r) = true)
  ∧ (∀ d, JObj d ∈ quotes → row_of_quote (JObj d) suffix = Ok (Some r) →
          d !! "shortName" = None → d !! "longName" = None →
          r_name r = JStr (r_symbol r)).
Proof.
  intros Hsel Hr.
  destruct (select_top_elem_quote _ _ _ _ _ Hsel Hr) as (q & _ & Hq).
  destruct (row_of_quote_fields _ _ _ Hq) as (d & -> & Hname & -> & -> & ->).
  split; [apply number_or_none_spec|]. split; [apply number_or_none_spec|].
  split; [apply number_or_none_spec|]. split.
  - intros Hsuf. assert (Hsym : r_symbol r ≠ "").
    { intros Hs. pose proof (select_top_row_endswith _ _ _ _ _ Hsel Hr) as He.
      rewrite Hs in He. by rewrite endswith_empty_false in He. }
    split; [done|]. rewrite Hname. unfold py_or.
    destruct (truthy (default JNull (d !! "shortName"))) eqn:T1; [by rewrite T1|].
    destruct (truthy (default JNull (d !! "longName"))) eqn:T2; [by rewrite T2|].
    simpl. by destruct (r_symbol r).
  - intros d' _ Hq' Hs Hl.
    destruct (row_of_quote_fields _ _ _ Hq') as (d'' & [= <-] & Hname' & _).
    by rewrite Hname', Hs, Hl.
Qed.

Lemma select_top_row_fields_witness :
  none_or_number (r_price (mk_row "X.BO" (JStr "X.BO") 100 JNull JNull JNull))
  ∧ truthy (r_name (mk_row "X.BO" (JStr "X.BO") 100 JNull JNull JNull)) = true.
Proof.
  assert (Hsel : select_top_by_exchange sample_quotes ".BO" 2
                 = Ok [mk_row "X.BO" (JStr "X.BO") 100 JNull JNull JNull])
    by (vm_compute; reflexivity).
  assert (Hr : mk_row "X.BO" (JStr "X.BO") 100 JNull JNull JNull
               ∈ [mk_row "X.BO" (JStr "X.BO") 100 JNull JNull JNull])
    by (apply list_elem_of_here).
  assert (Hsuf : ".BO" ≠ "") by discriminate.
  pose proof (select_top_row_fields _ _ _ _ _ Hsel Hr) as (Hp & _ & _ & Hn & _).
  exact (conj Hp (proj2 (Hn Hsuf))).
Defined.

Lemma collect_rows_each_Ok (quotes : list json) (suffix : string) (rows : list row)
    (q : json) :
  collect_rows quotes suffix = Ok rows → q ∈ quotes →
  ∃ o, row_of_quote q suffix = Ok o ∧ ∀ r, o = Some r → r ∈ rows.
Proof.
  revert rows. induction quotes as [|q' quotes IH]; simpl; intros rows H Hq.
  - by apply elem_of_nil in Hq.
  - apply bind_Ok_inv in H as (o & Ho & H).
    apply bind_Ok_inv in H as (rows' & Hrows' & H). injection H as <-.
    apply elem_of_cons in Hq as [->|Hq].
    + exists o. split; [done|]. intros r ->. left.
    + destruct (IH _ Hrows' Hq) as (o' & Ho' & Hin). exists o'. split; [done|].
      intros r Hr. specialize (Hin r Hr). destruct o; [by right | done].
Qed.

Lemma collect_rows_length (quotes : list json) (suffix : string) (rows : list row) :
  collect_rows quotes suffix = Ok rows → (length rows ≤ length quotes)%nat.
Proof.
  revert rows. induction quotes as [|q quotes IH]; simpl; intros rows H.
  - injection H as <-. done.
  - apply bind_Ok_inv in H as (o & Ho & H).
    apply bind_Ok_inv in H as (rows' & Hrows' & H). injection H as <-.
    specialize (IH _ Hrows'). destruct o; simpl; lia.
Qed.

(** X6. No matching quote is lost when there is room: if the call returns
    and top-N is at least the number of input quotes, every input quote
    whose symbol ends with the suffix has its row, with that symbol, in
    the returned list. *)
Theorem select_top_complete (quotes : list json) (suffix : string) (top_n : Z)
    (out : list row) (q : json) (s : string) :
  select_top_by_exchange quotes suffix top_n = Ok out →
  Z.of_nat (length quotes) ≤ top_n →
  q ∈ quotes → symbol_of q = Ok (JStr s) → (∃ p, s = p +:+ suffix) →
  ∃ r, r ∈ out ∧ r_symbol r = s ∧ row_of_quote q suffix = Ok (Some r).
Proof.
  intros Hsel Hn Hq Hs Hsuf%endswith_spec.
  destruct (select_top_inv _ _ _ _ Hsel) as (rows & Hrows & ->).
  destruct (collect_rows_each_Ok _ _ _ _ Hrows Hq) as (o & Ho & Hin).
  assert (∃ r, o = Some r ∧ r_symbol r = s) as (r & -> & Hr).
  { unfold row_of_quote in Ho. rewrite Hs in Ho. simpl in Ho.
    destruct q as [| | | | | |d]; try discriminate.
    rewrite Hsuf in Ho. simpl in Ho.
    apply bind_Ok_inv in Ho as (vol & _ & Ho). injection Ho as <-. by eexists. }
  exists r. split; [|done].
  pose proof (collect_rows_length _ _ _ Hrows) as Hlen.
  unfold py_slice_to. destruct (Z.leb_spec 0 top_n) as [_|]; [|lia].
  rewrite take_ge by (rewrite sort_key_reverse_length; lia).
  rewrite (sort_key_reverse_Permutation r_volume rows). by apply Hin.
Qed.

Lemma select_top_complete_witness :
  ∃ r, r ∈ [mk_row "INFY.NS" (JStr "INFY.NS") 900 JNull JNull JNull;
            mk_row "TCS.NS" (JStr "TCS.NS") 500 JNull JNull JNull;
            mk_row "SBIN.NS" (JStr "SBIN.NS") 500 JNull JNull JNull]
       ∧ r_symbol r = "SBIN.NS"
       ∧ row_of_quote (quote_sv "SBIN.NS" 500) ".NS" = Ok (Some r).
Proof.
  assert (Hsel : select_top_by_exchange sample_quotes ".NS" 4
                 = Ok [mk_row "INFY.NS" (JStr "INFY.NS") 900 JNull JNull JNull;
                       mk_row "TCS.NS" (JStr "TCS.NS") 500 JNull JNull JNull;
                       mk_row "SBIN.NS" (JStr "SBIN.NS") 500 JNull JNull JNull])
    by (vm_compute; reflexivity).
  assert (Hn : Z.of_nat (length sample_quotes) ≤ 4) by (vm_compute; discriminate).
  assert (Hq : quote_sv "SBIN.NS" 500 ∈ sample_quotes)
    by (do 3 apply list_elem_of_further; apply list_elem_of_here).
  assert (Hs : symbol_of (quote_sv "SBIN.NS" 500) = Ok (JStr "SBIN.NS"))
    by (vm_compute; reflexivity).
  assert (Hp : ∃ p, "SBIN.NS" = p +:+ ".NS") by (by exists "SBIN").
  exact (select_top_complete _ _ _ _ _ _ Hsel Hn Hq Hs Hp).
Defined.

Lemma collect_rows_raise_at (pre post : list json) (q : json) (suffix : string) (e : exn) :
  Forall wf_quote pre → row_of_quote q suffix = Raise e →
  collect_rows (pre ++ q :: post) suffix = Raise e.
Proof.
  intros Hpre Hq. induction Hpre as [|q' pre Hq' _ IH]; simpl.
  - by rewrite Hq.
  - destruct (row_of_quote_total q' suffix Hq') as [o ->]. simpl. by rewrite IH.
Qed.

(** X7. What makes the ranker raise. After well-formed quotes, the first
    element that is not a JSON object, or whose symbol is a truthy value
    other than a string, makes the call raise [AttributeError]; a quote
    that is kept and whose volume is a NaN makes it raise [ValueError],
    an infinite one [OverflowError]. *)
Theorem select_top_raises (pre post : list json) (suffix : string) (top_n : Z) :
  Forall wf_quote pre →
  (∀ q, (∀ d, q ≠ JObj d) →
        select_top_by_exchange (pre ++ q :: post) suffix top_n = Raise AttributeError)
  ∧ (∀ d v, d !! "symbol" = Some v → truthy v = true → (∀ s, v ≠ JStr s) →
            select_top_by_exchange (pre ++ JObj d :: post) suffix top_n
            = Raise AttributeError)
  ∧ (∀ d s f, d !! "symbol" = Some (JStr s) → endswith s suffix = true →
              d !! "regularMarketVolume" = Some (JFloat f) →
              (f = S754_nan →
               select_top_by_exchange (pre ++ JObj d :: post) suffix top_n
               = Raise ValueError)
              ∧ (∀ sign, f = S754_infinity sign →
                 select_top_by_exchange (pre ++ JObj d :: post) suffix top_n
                 = Raise OverflowError)).
Proof.
  intros Hpre.
  assert (Hsel : ∀ q e, row_of_quote q suffix = Raise e →
            select_top_by_exchange (pre ++ q :: post) suffix top_n = Raise e).
  { intros q e Hq. unfold select_top_by_exchange.
    by rewrite (collect_rows_raise_at pre post q suffix e Hpre Hq). }
  split; [|split].
  - intros q Hq. apply Hsel. destruct q; try reflexivity. by destruct (Hq m).
  - intros d v Hv Tv Hns. apply Hsel. unfold row_of_quote, symbol_of. simpl.
    rewrite Hv. simpl. unfold py_or. rewrite Tv. simpl.
    destruct v; try reflexivity. by destruct (Hns s).
  - intros d s f Hs He Hvol.
    split; [intros -> | intros sign ->]; apply Hsel;
      unfold row_of_quote, symbol_of; simpl; rewrite Hs; simpl;
      unfold py_or at 1; destruct s; simpl; rewrite He; simpl;
      unfold compute_volume; rewrite Hvol; reflexivity.
Qed.

Lemma select_top_raises_witness :
  select_top_by_exchange ([quote_sv "INFY.NS" 900] ++ JStr "TCS.NS" :: []) ".NS" 5
  = Raise AttributeError.
Proof.
  assert (Hpre : Forall wf_quote [quote_sv "INFY.NS" 900]).
  { constructor; [|constructor]. eexists. split; [reflexivity|].
    split; [|split; vm_compute; exact I].
    intros v Hv _. vm_compute in Hv. injection Hv as <-. by eexists. }
  apply (proj1 (select_top_raises _ [] ".NS" 5 Hpre)). discriminate.
Defined.

(** X8. A negative top-N does not bound the list by a count: the call
    returns the ranking without its last |top-N| rows, still sorted, so
    its length is max(0, number of kept rows + top-N). *)
Theorem select_top_negative (quotes : list json) (suffix : string) (top_n : Z)
    (out rows : list row) :
  top_n < 0 →
  select_top_by_exchange quotes suffix top_n = Ok out →
  collect_rows quotes suffix = Ok rows →
  Z.of_nat (length out) = Z.max 0 (Z.of_nat (length rows) + top_n)
  ∧ StronglySorted (λ a b, r_volume b ≤ r_volume a) out
  ∧ ∃ full, select_top_by_exchange quotes suffix (Z.of_nat (length rows)) = Ok full
            ∧ full ≡ₚ rows ∧ out `prefix_of` full.
Proof.
  intros Hn (rows' & Hrows' & ->)%select_top_inv Hrows.
  assert (rows' = rows) as -> by congruence.
  unfold py_slice_to. destruct (Z.leb_spec 0 top_n) as [|_]; [lia|].
  split; [rewrite length_take, sort_key_reverse_length; lia|].
  split; [apply (StronglySorted_take r_volume), (sort_key_reverse_sorted r_volume)|].
  exists (sort_key_reverse r_volume rows). split; [|split].
  - unfold select_top_by_exchange. rewrite Hrows. simpl. unfold py_slice_to.
    destruct (Z.leb_spec 0 (Z.of_nat (length rows))) as [_|]; [|lia].
    by rewrite Nat2Z.id, take_ge by (by rewrite sort_key_reverse_length).
  - apply sort_key_reverse_Permutation.
  - apply prefix_take.
Qed.

Lemma select_top_negative_witness :
  Z.of_nat (length [mk_row "INFY.NS" (JStr "INFY.NS") 900 JNull JNull JNull])
  = Z.max 0 (Z.of_nat 3 + -2).
Proof.
  assert (Hn : -2 < 0) by lia.
  assert (Hsel : select_top_by_exchange sample_quotes ".NS" (-2)
                 = Ok [mk_row "INFY.NS" (JStr "INFY.NS") 900 JNull JNull JNull])
    by (vm_compute; reflexivity).
  assert (Hrows : collect_rows sample_quotes ".NS"
                  = Ok [mk_row "INFY.NS" (JStr "INFY.NS") 900 JNull JNull JNull;
                        mk_row "TCS.NS" (JStr "TCS.NS") 500 JNull JNull JNull;
                        mk_row "SBIN.NS" (JStr "SBIN.NS") 500 JNull JNull JNull])
    by (vm_compute; reflexivity).
  exact (proj1 (select_top_negative _ _ _ _ _ Hn Hsel Hrows)).
Defined.

(** ** Fetcher *)

Lemma py_range_length (lo hi : Z) : length (py_range lo hi) = Z.to_nat (hi - lo).
Proof. unfold py_range. by rewrite length_map, length_seq. Qed.

Lemma elem_of_py_range (lo hi n : Z) : n ∈ py_range lo hi ↔ lo ≤ n < hi.
Proof.
  unfold py_range. rewrite list_elem_of_fmap. split.
  - intros (i & -> & Hi). apply elem_of_seq in Hi. lia.
  - intros Hn. exists (Z.to_nat (n - lo)). split; [lia|]. apply elem_of_seq. lia.
Qed.

Lemma map_seq_from (f : nat → Z) (s n : nat) :
  map f (seq s n) = map (λ i, f (s + i)%nat) (seq 0 n).
Proof.
  revert s f. induction n as [|n IH]; intros s f; simpl; [done|].
  f_equal; [f_equal; lia|].
  rewrite (IH (S s)), (IH 1%nat). apply map_ext. intros i. f_equal. lia.
Qed.

Lemma py_range_split (lo k hi : Z) :
  lo ≤ k < hi → py_range lo hi = py_range lo k ++ k :: py_range (k + 1) hi.
Proof.
  intros Hk. unfold py_range.
  replace (Z.to_nat (hi - lo)) with (Z.to_nat (k - lo) + S (Z.to_nat (hi - (k + 1))))%nat
    by lia.
  rewrite seq_app, map_app. f_equal. simpl. f_equal; [lia|].
  rewrite map_seq_from. apply map_ext. intros i. lia.
Qed.

Lemma extract_quotes_shape (data quotes : json) :
  extract_quotes data = Ok quotes → quotes = JList [] ∨ truthy quotes = true.
Proof.
  unfold extract_quotes. intros (fin & _ & H)%bind_Ok_inv.
  apply bind_Ok_inv in H as (res & _ & H).
  apply bind_Ok_inv in H as (first & _ & H).
  apply bind_Ok_inv in H as (qs & _ & H). injection H as <-.
  unfold py_or. destruct (truthy qs) eqn:T; [by right | by left].
Qed.

Lemma try_attempt_falls_through (o : http_outcome) :
  attempt_falls_through o → ∃ lvl fmt, try_attempt o = (None, [EvLog lvl fmt]).
Proof.
  destruct o as [|code text body]; simpl; [by eexists _, _|].
  intros H. destruct (Z.eqb_spec code 200) as [->|]; [|by eexists _, _].
  destruct H as [H|[e ->]]; [done|]. by eexists _, _.
Qed.

Lemma try_attempt_returns (o : http_outcome) (quotes : json) :
  attempt_returns o quotes → try_attempt o = (Some quotes, []).
Proof. intros (text & data & -> & H). simpl. by rewrite H. Qed.

(** One attempt only logs, and what it returns is truthy or the empty
    list. *)
Lemma try_attempt_shape (o : http_outcome) :
  (∃ logs, (try_attempt o).2 = logs ∧ posts_of logs = [] ∧ sleeps_of logs = []
           ∧ Forall (λ ev, is_render ev = false ∧ is_mail_event ev = false) logs)
  ∧ ∀ quotes, (try_attempt o).1 = Some quotes → quotes = JList [] ∨ truthy quotes = true.
Proof.
  destruct o as [|code text body]; simpl.
  - split; [|discriminate]. eexists. repeat split. by repeat constructor.
  - destruct (code =? 200); simpl.
    + destruct body as [data|e]; simpl.
      * destruct (extract_quotes data) as [q|e] eqn:Hq; simpl.
        -- split; [eexists; repeat split; constructor|].
           intros ? [= <-]. by eapply extract_quotes_shape.
        -- split; [|discriminate]. eexists. repeat split. by repeat constructor.
      * split; [|discriminate]. eexists. repeat split. by repeat constructor.
    + split; [|discriminate]. eexists. repeat split. by repeat constructor.
Qed.

Lemma fetch_loop_fall_through_prefix (server : Z → http_outcome) (size timeout : Z)
    (pre : list Z) :
  Forall (λ n, attempt_falls_through (server n)) pre →
  ∃ ptr, posts_of ptr = map (λ _, (SCREENER_URL, size, timeout)) pre
         ∧ sleeps_of ptr = map (λ a, ((3 # 2) * inject_Z a)%Q) pre
         ∧ ∀ rest, fetch_loop server size timeout (pre ++ rest)
                   = ((fetch_loop server size timeout rest).1,
                      ptr ++ (fetch_loop server size timeout rest).2).
Proof.
  induction 1 as [|a pre Ha _ IH].
  - exists []. repeat split. intros rest. simpl. by destruct (fetch_loop _ _ _ rest).
  - destruct (try_attempt_falls_through _ Ha) as (lvl & fmt & Hta).
    destruct IH as (ptr & Hposts & Hsleeps & Happ).
    exists (EvPost SCREENER_URL size timeout :: EvLog lvl fmt
              :: EvSleep ((3 # 2) * inject_Z a) :: ptr).
    split; [|split].
    + simpl map. rewrite <- Hposts. reflexivity.
    + simpl map. rewrite <- Hsleeps. reflexivity.
    + intros rest. simpl. rewrite Hta, Happ. reflexivity.
Qed.

(** X9. The first attempt that returns ends the fetch: if attempts 1 to
    k-1 do not return and attempt k (k <= retries) returns [quotes], the
    fetcher returns [quotes] after exactly k requests and k-1 sleeps of
    1.5, 3.0, .. seconds; the last thing it does is the request that was
    answered, with no sleep after it and no further attempt. *)
Theorem fetch_returns_first_success (server : Z → http_outcome)
    (size retries timeout k : Z) (quotes : json) :
  1 ≤ k ≤ retries →
  (∀ n, 1 ≤ n < k → attempt_falls_through (server n)) →
  attempt_returns (server k) quotes →
  ∃ tr, yahoo_screener_most_active_india server size retries timeout
        = (quotes, tr ++ [EvPost SCREENER_URL size timeout])
        ∧ posts_of tr = map (λ _, (SCREENER_URL, size, timeout)) (py_range 1 k)
        ∧ sleeps_of tr = map (λ a, ((3 # 2) * inject_Z a)%Q) (py_range 1 k)
        ∧ length (sleeps_of tr) = Z.to_nat (k - 1).
Proof.
  intros Hk Hfall Hret. unfold yahoo_screener_most_active_india.
  rewrite (py_range_split 1 k (retries + 1)) by lia.
  destruct (fetch_loop_fall_through_prefix server size timeout (py_range 1 k))
    as (ptr & Hposts & Hsleeps & Happ).
  { apply Forall_forall. intros n Hn%elem_of_py_range. by apply Hfall. }
  exists ptr. rewrite Happ. simpl. rewrite (try_attempt_returns _ _ Hret). simpl.
  repeat split; [done..|]. by rewrite Hsleeps, length_map, py_range_length.
Qed.

Lemma fetch_returns_first_success_witness :
  ∃ tr, yahoo_screener_most_active_india
          (λ n, if n =? 2
                then Response 200 ""
                       (Ok (quote_of
                              [("finance",
                                quote_of [("result",
                                           JList [quote_of
                                                    [("quotes",
                                                      JList [quote_sv "TCS.NS" 5])]])])]))
                else Response 503 "" (Raise ValueError))
          60 3 15
        = (JList [quote_sv "TCS.NS" 5], tr ++ [EvPost SCREENER_URL 60 15])
        ∧ posts_of tr = map (λ _, (SCREENER_URL, 60, 15)) (py_range 1 2)
        ∧ sleeps_of tr = map (λ a, ((3 # 2) * inject_Z a)%Q) (py_range 1 2)
        ∧ length (sleeps_of tr) = Z.to_nat (2 - 1).
Proof.
  apply fetch_returns_first_success.
  - lia.
  - intros n Hn. assert (n = 1) as -> by lia. simpl. left. discriminate.
  - eexists _, _. split; [reflexivity|]. vm_compute. reflexivity.
Defined.

Lemma posts_of_app (tr1 tr2 : list event) :
  posts_of (tr1 ++ tr2) = posts_of tr1 ++ posts_of tr2.
Proof. apply omap_app. Qed.

Lemma sleeps_of_app (tr1 tr2 : list event) :
  sleeps_of (tr1 ++ tr2) = sleeps_of tr1 ++ sleeps_of tr2.
Proof. apply omap_app. Qed.

Lemma fetch_loop_shape (server : Z → http_outcome) (size timeout : Z) (attempts : list Z) :
  (length (posts_of (fetch_loop server size timeout attempts).2) ≤ length attempts)%nat
  ∧ Forall (λ p, p = (SCREENER_URL, size, timeout))
      (posts_of (fetch_loop server size timeout attempts).2)
  ∧ (length (sleeps_of (fetch_loop server size timeout attempts).2)
     ≤ length (posts_of (fetch_loop server size timeout attempts).2))%nat
  ∧ Forall (λ ev, is_render ev = false ∧ is_mail_event ev = false)
      (fetch_loop server size timeout attempts).2
  ∧ ((fetch_loop server size timeout attempts).1 = JList []
     ∨ truthy (fetch_loop server size timeout attempts).1 = true)
  ∧ (truthy (fetch_loop server size timeout attempts).1 = true →
     posts_of (fetch_loop server size timeout attempts).2 ≠ []).
Proof.
  induction attempts as [|a attempts IH].
  - simpl. split; [done|]. split; [constructor|]. split; [done|].
    split; [constructor|]. split; [by left | discriminate].
  - destruct (try_attempt_shape (server a)) as [(logs & Hlogs & Hp & Hs & Hall) Hq].
    simpl fetch_loop.
    destruct (try_attempt (server a)) as [[q|] logs'] eqn:Hta; simpl in Hlogs, Hq;
      subst logs'.
    + change (posts_of (_, EvPost SCREENER_URL size timeout :: logs).2)
        with ((SCREENER_URL, size, timeout) :: posts_of logs).
      change (sleeps_of (_, EvPost SCREENER_URL size timeout :: logs).2)
        with (sleeps_of logs).
      rewrite Hp, Hs. simpl.
      split; [lia|]. split; [by repeat constructor|]. split; [lia|].
      split; [by constructor|]. split; [by apply Hq | done].
    + destruct (fetch_loop server size timeout attempts) as [r tr].
      destruct IH as (IH1 & IH2 & IH3 & IH4 & IH5 & IH6). simpl in IH1, IH3, IH4, IH5, IH6.
      simpl in IH2.
      change (posts_of (r, EvPost SCREENER_URL size timeout
                            :: logs ++ EvSleep ((3 # 2) * inject_Z a) :: tr).2)
        with ((SCREENER_URL, size, timeout)
                :: posts_of (logs ++ EvSleep ((3 # 2) * inject_Z a) :: tr)).
      change (sleeps_of (r, EvPost SCREENER_URL size timeout
                             :: logs ++ EvSleep ((3 # 2) * inject_Z a) :: tr).2)
        with (sleeps_of (logs ++ EvSleep ((3 # 2) * inject_Z a) :: tr)).
      rewrite posts_of_app, sleeps_of_app, Hp, Hs.
      change (posts_of (EvSleep ((3 # 2) * inject_Z a) :: tr)) with (posts_of tr).
      change (sleeps_of (EvSleep ((3 # 2) * inject_Z a) :: tr))
        with (((3 # 2) * inject_Z a)%Q :: sleeps_of tr).
      simpl.
      split; [lia|]. split; [by constructor|]. split; [lia|].
      split; [|split; [done|done]].
      constructor; [done|]. apply Forall_app. split; [done|]. by constructor.
Qed.

(** X10. Whatever the server does, the fetcher makes at most [retries]
    requests, all to the screener with the given size and timeout, never
    sleeps more often than it requests, and returns either the empty list
    or a truthy value, a truthy one only after at least one request; with
    [retries <= 0] it returns the empty list without any request. *)
Theorem fetch_bounded (server : Z → http_outcome) (size retries timeout : Z) :
  (length (posts_of (yahoo_screener_most_active_india server size retries timeout).2)
   ≤ Z.to_nat retries)%nat
  ∧ Forall (λ p, p = (SCREENER_URL, size, timeout))
      (posts_of (yahoo_screener_most_active_india server size retries timeout).2)
  ∧ (length (sleeps_of (yahoo_screener_most_active_india server size retries timeout).2)
     ≤ length (posts_of (yahoo_screener_most_active_india server size retries timeout).2))%nat
  ∧ ((yahoo_screener_most_active_india server size retries timeout).1 = JList []
     ∨ truthy (yahoo_screener_most_active_india server size retries timeout).1 = true)
  ∧ (truthy (yahoo_screener_most_active_india server size retries timeout).1 = true →
     posts_of (yahoo_screener_most_active_india server size retries timeout).2 ≠ [])
  ∧ (retries ≤ 0 →
     yahoo_screener_most_active_india server size retries timeout = (JList [], [])).
Proof.
  unfold yahoo_screener_most_active_india.
  destruct (fetch_loop_shape server size timeout (py_range 1 (retries + 1)))
    as (H1 & H2 & H3 & _ & H5 & H6).
  rewrite py_range_length in H1.
  repeat split; try done; [lia|].
  intros Hr. unfold py_range. replace (Z.to_nat (retries + 1 - 1)) with 0%nat by lia.
  reflexivity.
Qed.

Lemma fetch_bounded_witness :
  yahoo_screener_most_active_india (λ _, Transport_error) 60 0 15 = (JList [], []).
Proof.
  apply (proj2 (proj2 (proj2 (proj2 (proj2
           (fetch_bounded (λ _, Transport_error) 60 0 15)))))). lia.
Defined.

(** X11. A decoded body degrades to the empty list only when keys are
    missing: without "finance", without "result" or without "quotes" in
    the first result, and with a null or empty "quotes", the quotes are
    the empty list; but an empty "result" list raises [IndexError], and a
    body or a "finance" value that is not an object raises
    [AttributeError]. Only the first result is looked at. *)
Theorem extract_quotes_missing_keys :
  (∀ m, m !! "finance" = None → extract_quotes (JObj m) = Ok (JList []))
  ∧ (∀ m f, m !! "finance" = Some (JObj f) → f !! "result" = None →
            extract_quotes (JObj m) = Ok (JList []))
  ∧ (∀ m f r rest v,
       m !! "finance" = Some (JObj f) → f !! "result" = Some (JList (JObj r :: rest)) →
       (r !! "quotes" = None → extract_quotes (JObj m) = Ok (JList []))
       ∧ (r !! "quotes" = Some v → truthy v = false →
          extract_quotes (JObj m) = Ok (JList []))
       ∧ (r !! "quotes" = Some v → truthy v = true → extract_quotes (JObj m) = Ok v))
  ∧ (∀ m f, m !! "finance" = Some (JObj f) → f !! "result" = Some (JList []) →
            extract_quotes (JObj m) = Raise IndexError)
  ∧ (∀ m v, m !! "finance" = Some v → (∀ f, v ≠ JObj f) →
            extract_quotes (JObj m) = Raise AttributeError)
  ∧ (∀ data, (∀ m, data ≠ JObj m) → extract_quotes data = Raise AttributeError).
Proof.
  unfold extract_quotes. split; [|split; [|split; [|split; [|split]]]].
  - intros m Hm. simpl. rewrite Hm. reflexivity.
  - intros m f Hm Hr. simpl. rewrite Hm. simpl. rewrite Hr. reflexivity.
  - intros m f r rest v Hm Hr. simpl. rewrite Hm. simpl. rewrite Hr. simpl.
    split; [|split].
    + intros Hq. rewrite Hq. reflexivity.
    + intros Hq Tv. rewrite Hq. simpl. unfold py_or. by rewrite Tv.
    + intros Hq Tv. rewrite Hq. simpl. unfold py_or. by rewrite Tv.
  - intros m f Hm Hr. simpl. rewrite Hm. simpl. rewrite Hr. reflexivity.
  - intros m v Hm Hv. simpl. rewrite Hm. simpl.
    destruct v as [| | | | | |f]; try reflexivity. by destruct (Hv f).
  - intros data Hd. destruct data as [| | | | | |m]; try reflexivity. by destruct (Hd m).
Qed.

Lemma extract_quotes_missing_keys_witness :
  extract_quotes (quote_of [("error", JNull)]) = Ok (JList [])
  ∧ extract_quotes (quote_of [("finance", quote_of [("result", JList [])])])
    = Raise IndexError.
Proof.
  split.
  - apply (proj1 extract_quotes_missing_keys). vm_compute. reflexivity.
  - apply (proj1 (proj2 (proj2 (proj2 extract_quotes_missing_keys)))
             _ (list_to_map [("result", JList [])])); vm_compute; reflexivity.
Defined.

Lemma Qsum_app (l1 l2 : list Q) : (Qsum (l1 ++ l2) == Qsum l1 + Qsum l2)%Q.
Proof.
  induction l1 as [|x l1 IH]; simpl.
  - by rewrite Qplus_0_l.
  - rewrite IH. by rewrite Qplus_assoc.
Qed.

Lemma Qsum_backoff (n : nat) :
  (Qsum (map (λ a, (3 # 2) * inject_Z a) (py_range 1 (Z.of_nat n + 1)))
   == (3 # 4) * inject_Z (Z.of_nat n) * inject_Z (Z.of_nat n + 1))%Q.
Proof.
  induction n as [|n IH].
  - reflexivity.
  - rewrite (py_range_split 1 (Z.of_nat (S n)) (Z.of_nat (S n) + 1)) by lia.
    replace (py_range (Z.of_nat (S n) + 1) (Z.of_nat (S n) + 1)) with (@nil Z)
      by (unfold py_range; by rewrite Z.sub_diag).
    replace (Z.of_nat (S n)) with (Z.of_nat n + 1) by lia.
    rewrite map_app, Qsum_app, IH. simpl.
    rewrite !inject_Z_plus. change (inject_Z 1) with 1%Q. ring.
Qed.

(** X12. When no attempt returns, the fetcher gives up with the empty
    list after exactly [retries] requests, having slept after each of
    them for 1.5, 3.0, .. seconds: 0.75 × retries × (retries + 1)
    seconds of sleep in all. *)
Theorem fetch_exhausted_backoff (server : Z → http_outcome) (size retries timeout : Z) :
  0 ≤ retries →
  (∀ n, 1 ≤ n ≤ retries → attempt_falls_through (server n)) →
  ∃ tr, yahoo_screener_most_active_india server size retries timeout = (JList [], tr)
        ∧ length (posts_of tr) = Z.to_nat retries
        ∧ sleeps_of tr = map (λ a, ((3 # 2) * inject_Z a)%Q) (py_range 1 (retries + 1))
        ∧ (Qsum (sleeps_of tr) == (3 # 4) * inject_Z retries * inject_Z (retries + 1))%Q.
Proof.
  intros Hr Hfall. unfold yahoo_screener_most_active_india.
  destruct (fetch_loop_fall_through_prefix server size timeout (py_range 1 (retries + 1)))
    as (ptr & Hposts & Hsleeps & Happ).
  { apply Forall_forall. intros n Hn%elem_of_py_range. apply Hfall. lia. }
  exists ptr. specialize (Happ []). rewrite app_nil_r in Happ. rewrite Happ. simpl.
  rewrite app_nil_r. split; [done|].
  split; [by rewrite Hposts, length_map, py_range_length; f_equal; lia|].
  split; [done|]. rewrite Hsleeps.
  rewrite <- (Z2Nat.id retries) by done. apply Qsum_backoff.
Qed.

Lemma fetch_exhausted_backoff_witness :
  ∃ tr, yahoo_screener_most_active_india
          (λ _, Response 200 "" (Ok (quote_of [("finance", JNull)]))) 60 4 15
        = (JList [], tr)
        ∧ length (posts_of tr) = Z.to_nat 4
        ∧ sleeps_of tr = map (λ a, ((3 # 2) * inject_Z a)%Q) (py_range 1 (4 + 1))
        ∧ (Qsum (sleeps_of tr) == (3 # 4) * inject_Z 4 * inject_Z (4 + 1))%Q.
Proof.
  apply fetch_exhausted_backoff; [lia|].
  intros n _. simpl. right. eexists. vm_compute. reflexivity.
Defined.

(** ** Market-hours gate, seen from the clock *)

Lemma market_open_window (dt : datetime) :
  valid_time (dt_time dt) →
  market_open dt = true
  ↔ is_mon_fri (dow_of_ordinal (ordinal dt)) = true
    ∧ 33300000000 ≤ us_of_time (dt_time dt) ≤ 55800000000.
Proof.
  intros Hv. unfold market_open. rewrite weekday_mon_fri.
  rewrite time_ge_us, time_le_us by (done || apply valid_dtime_hm; lia).
  change (us_of_time (dtime_hm 9 15)) with 33300000000.
  change (us_of_time (dtime_hm 15 30)) with 55800000000.
  destruct (is_mon_fri _); simpl; [|split; [done | intros [? _]; done]].
  rewrite andb_true_iff, !Z.leb_le. split; [intros [? ?] | intros [_ [? ?]]]; done.
Qed.

(** X13. In terms of the clock, which runs on UTC: called without an
    argument, the gate answers, and it answers open exactly when the UTC
    date is a Monday to Friday and the UTC time of day lies in
    [03:45, 10:00], both ends included. (The local window never crosses
    midnight UTC, so the local and the UTC weekday agree inside it.) *)
Theorem gate_utc_window (utc : datetime) :
  valid_time (dt_time utc) → 0 < ordinal utc < MAXORDINAL →
  ∃ b, is_market_open_ist utc None = Ok b
       ∧ (b = true
          ↔ is_mon_fri (dow_of_ordinal (ordinal utc)) = true
            ∧ us_of_time (dtime_hm 3 45) ≤ us_of_time (dt_time utc)
              ≤ us_of_time (dtime_hm 10 0)).
Proof.
  intros Hv Ho. destruct (now_ist_dt_spec utc Hv Ho) as (local & Hl & Habs & Hvl).
  exists (market_open local). split.
  { unfold is_market_open_ist. by rewrite Hl. }
  rewrite (market_open_window local Hvl).
  change (us_of_time (dtime_hm 3 45)) with 13500000000.
  change (us_of_time (dtime_hm 10 0)) with 36000000000.
  pose proof (us_of_time_bound _ Hv) as Hbu. pose proof (us_of_time_bound _ Hvl) as Hbl.
  unfold abs_us, US_PER_DAY in *.
  split.
  - intros [Hday Hwin].
    assert (ordinal local = ordinal utc) as Hsame by lia.
    rewrite <- Hsame. split; [done | lia].
  - intros [Hday Hwin].
    assert (ordinal local = ordinal utc) as Hsame by lia.
    rewrite Hsame. split; [done | lia].
Qed.

Lemma gate_utc_window_witness :
  ∃ b, is_market_open_ist (datetime_of 2024 1 3 4 30 0 0) None = Ok b
       ∧ (b = true
          ↔ is_mon_fri (dow_of_ordinal (ordinal (datetime_of 2024 1 3 4 30 0 0))) = true
            ∧ us_of_time (dtime_hm 3 45)
              ≤ us_of_time (dt_time (datetime_of 2024 1 3 4 30 0 0))
              ≤ us_of_time (dtime_hm 10 0)).
Proof.
  apply gate_utc_window.
  - unfold valid_time. simpl. lia.
  - vm_compute. split; reflexivity.
Defined.

(** The gate at both ends of the UTC window on Wednesday 2024-01-03, and
    late on a Sunday UTC, when it is already Monday in India but before
    the opening. *)
Example gate_utc_cases :
  is_market_open_ist (datetime_of 2024 1 3 3 45 0 0) None = Ok true
  ∧ is_market_open_ist (datetime_of 2024 1 3 3 44 59 999999) None = Ok false
  ∧ is_market_open_ist (datetime_of 2024 1 3 10 0 0 0) None = Ok true
  ∧ is_market_open_ist (datetime_of 2024 1 3 10 0 0 1) None = Ok false
  ∧ is_market_open_ist (datetime_of 2024 1 7 23 0 0 0) None = Ok false.
Proof. vm_compute. done. Qed.

(** ** Mail dispatcher and configuration *)

(** A membership hypothesis in a list that does not hold the element *)
Ltac refute_elem H :=
  repeat (apply elem_of_cons in H as [H|H]; [discriminate|]);
  by apply elem_of_nil in H.

(** X14. The mail session keeps its order and cleans up: credentials are
    sent only after STARTTLS, the one message only after the login, with
    the configured sender and recipients and the given subject and body;
    a session that started TLS is always quit; the call returns normally
    exactly when the configuration is complete and the relay accepted
    every step, and only then logs the success. *)
Theorem send_email_session_order (cfg : config) (relay : smtp_relay)
    (subject html_body : string) :
  (∀ i u p, (send_email cfg relay subject html_body).2 !! i = Some (EvLogin u p) →
            ∃ j, (j < i)%nat
                 ∧ (send_email cfg relay subject html_body).2 !! j = Some EvStartTls)
  ∧ (∀ i f t s b,
       (send_email cfg relay subject html_body).2 !! i = Some (EvSendmail f t s b) →
       f = FROM_EMAIL cfg ∧ t = TO_EMAILS cfg ∧ s = subject ∧ b = html_body
       ∧ ∃ j, (j < i)%nat
              ∧ (send_email cfg relay subject html_body).2 !! j
                = Some (EvLogin (SMTP_USER cfg) (SMTP_PASS cfg)))
  ∧ (length (filter (λ ev, is_sendmail ev = true)
               (send_email cfg relay subject html_body).2) ≤ 1)%nat
  ∧ (EvStartTls ∈ (send_email cfg relay subject html_body).2 →
     EvSmtpQuit ∈ (send_email cfg relay subject html_body).2)
  ∧ ((send_email cfg relay subject html_body).1 = Ok tt
     ↔ config_complete cfg = true ∧ relay = Relay_ok)
  ∧ ((send_email cfg relay subject html_body).1 = Ok tt
     ↔ EvLog INFO "Email sent to: %s" ∈ (send_email cfg relay subject html_body).2)
  ∧ ((send_email cfg relay subject html_body).1 = Ok tt →
     EvSendmail (FROM_EMAIL cfg) (TO_EMAILS cfg) subject html_body
     ∈ (send_email cfg relay subject html_body).2).
Proof.
  unfold send_email.
  destruct (config_complete cfg); destruct relay; simpl.
  all: split; [intros i u p Hi;
               repeat (destruct i as [|i]; simpl in Hi; simplify_eq);
               exists 1%nat; (split; [lia | reflexivity])|].
  all: split; [intros i f t s b Hi;
               repeat (destruct i as [|i]; simpl in Hi; simplify_eq);
               repeat (split; [reflexivity|]);
               exists 2%nat; (split; [lia | reflexivity])|].
  all: split; [vm_compute; lia|].
  all: split; [intros H; first [by repeat constructor | refute_elem H]|].
  all: split; [split; [intros H; by simplify_eq | intros [? ?]; by simplify_eq]|].
  all: split; [split; intros H;
               first [by repeat constructor | by simplify_eq | refute_elem H]|].
  all: intros H; first [by repeat constructor | by simplify_eq].
Qed.

Lemma send_email_session_order_witness :
  EvSmtpQuit ∈ (send_email sample_cfg Login_fails "subject" "<html></html>").2
  ∧ (send_email sample_cfg Relay_ok "subject" "<html></html>").1 = Ok tt.
Proof.
  split.
  - apply (proj1 (proj2 (proj2 (proj2
             (send_email_session_order sample_cfg Login_fails "subject" "<html></html>"))))).
    vm_compute. apply list_elem_of_further, list_elem_of_here.
  - apply (proj1 (proj2 (proj2 (proj2 (proj2
             (send_email_session_order sample_cfg Relay_ok "subject" "<html></html>")))))).
    split; vm_compute; reflexivity.
Defined.

(** X15. The sender address defaults to the username only when
    [FROM_EMAIL] is unset. A [FROM_EMAIL] that is set but empty is kept
    as it is, so the mail is refused with the configuration error even
    though a username is configured. *)
Theorem from_email_default (env : gmap string string) (smtp_port : Z)
    (to_emails : list string) (top_n : Z) (enforce : bool) (log_level : string) :
  (env !! "FROM_EMAIL" = None →
   FROM_EMAIL (config_of_env env smtp_port to_emails top_n enforce log_level)
   = SMTP_USER (config_of_env env smtp_port to_emails top_n enforce log_level))
  ∧ (∀ v, env !! "FROM_EMAIL" = Some v →
          FROM_EMAIL (config_of_env env smtp_port to_emails top_n enforce log_level) = v)
  ∧ (env !! "FROM_EMAIL" = Some "" →
     ∀ relay subject html_body,
       send_email (config_of_env env smtp_port to_emails top_n enforce log_level)
         relay subject html_body
       = (Raise (RuntimeError CONFIG_MISSING), [])).
Proof.
  split; [|split].
  - intros H. unfold config_of_env, getenv. simpl. rewrite H. simpl.
    by destruct (default "" (env !! "SMTP_USER")).
  - intros v H. unfold config_of_env, getenv. simpl. by rewrite H.
  - intros H relay subject html_body. unfold send_email.
    rewrite config_missing_incomplete; [done|].
    unfold config_missing, config_of_env, getenv. simpl. rewrite H. simpl. tauto.
Qed.

Lemma from_email_default_witness :
  send_email
    (config_of_env (list_to_map [("SMTP_HOST", "smtp.example.org"); ("SMTP_USER", "bot");
                                 ("SMTP_PASS", "secret"); ("FROM_EMAIL", "")])
       587 ["desk@example.org"] 10 true "INFO")
    Relay_ok "subject" "<html></html>"
  = (Raise (RuntimeError CONFIG_MISSING), []).
Proof.
  apply (proj2 (proj2 (from_email_default _ 587 ["desk@example.org"] 10 true "INFO"))).
  vm_compute. reflexivity.
Defined.

(** ** Report renderer *)

Lemma filter_rev {A} (P : A → Prop) `{!∀ x, Decision (P x)} (l : list A) :
  filter P (rev l) = rev (filter P l).
Proof.
  induction l as [|x l IH]; simpl; [done|].
  rewrite filter_app, IH, !filter_cons, filter_nil.
  destruct (decide (P x)); simpl; [done | by rewrite app_nil_r].
Qed.

Lemma filter_all {A} (P : A → Prop) `{!∀ x, Decision (P x)} (l : list A) :
  Forall P l → filter P l = l.
Proof.
  induction 1 as [|x l Hx _ IH]; [done|].
  rewrite filter_cons, IH. by destruct (decide (P x)).
Qed.

(** Grouping only adds commas. *)
Lemma group3_strip (n : nat) (ds : list ascii) :
  (length ds ≤ n)%nat →
  filter (λ c, c ≠ ","%char) (group3 ds) = filter (λ c, c ≠ ","%char) ds.
Proof.
  revert ds. induction n as [|n IH]; intros ds Hn.
  - destruct ds; [done | simpl in Hn; lia].
  - destruct ds as [|a [|b [|c [|d rest]]]]; try done.
    change (group3 (a :: b :: c :: d :: rest))
      with (a :: b :: c :: ","%char :: group3 (d :: rest)).
    rewrite !(filter_cons _ a), !(filter_cons _ b), !(filter_cons _ c).
    rewrite (filter_cons _ ","%char).
    destruct (decide (","%char ≠ ","%char)) as [Hc|_]; [done|].
    rewrite (IH (d :: rest)) by (simpl in *; lia). done.
Qed.

Lemma uint_digits_no_comma (d : Decimal.uint) :
  Forall (λ c, c ≠ ","%char) (list_ascii_of_string (NilEmpty.string_of_uint d)).
Proof. induction d; simpl; constructor; (discriminate || done). Qed.

Lemma str_of_Z_abs_no_comma (z : Z) :
  Forall (λ c, c ≠ ","%char) (list_ascii_of_string (str_of_Z (Z.abs z))).
Proof.
  unfold str_of_Z. destruct z as [|p|p]; simpl.
  - by repeat constructor.
  - destruct (Pos.to_uint p) eqn:E; try apply (uint_digits_no_comma (_ u)).
    by repeat constructor.
  - destruct (Pos.to_uint p) eqn:E; try apply (uint_digits_no_comma (_ u)).
    by repeat constructor.
Qed.

(** X16. The thousands separators are only separators: the volume cell
    without its commas is the decimal text of the volume, for every
    integer, negative ones included. *)
Theorem format_thousands_strip (z : Z) :
  strip_commas (format_thousands z) = str_of_Z z.
Proof.
  pose proof (str_of_Z_abs_no_comma z) as Hd.
  assert (Hg : strip_commas
                 (string_of_list_ascii
                    (rev (group3 (rev (list_ascii_of_string (str_of_Z (Z.abs z)))))))
               = str_of_Z (Z.abs z)).
  { unfold strip_commas. rewrite list_ascii_of_string_of_list_ascii.
    rewrite filter_rev, (group3_strip _ _ (le_n _)), filter_rev, rev_involutive.
    rewrite filter_all by done. apply string_of_list_ascii_of_string. }
  unfold format_thousands. destruct (Z.ltb_spec z 0) as [Hneg|Hpos].
  - change (strip_commas ("-" +:+ ?s)) with (String "-" (strip_commas s)).
    rewrite Hg. destruct z as [|p|p]; try lia. reflexivity.
  - rewrite Hg. by rewrite Z.abs_eq.
Qed.

(** The volume cell of some volumes *)
Example format_thousands_cases :
  format_thousands 0 = "0" ∧ format_thousands 999 = "999"
  ∧ format_thousands 1000 = "1,000" ∧ format_thousands 1234567 = "1,234,567"
  ∧ format_thousands 100000 = "100,000" ∧ format_thousands (-1234) = "-1,234".
Proof. vm_compute. done. Qed.






(** X18. Every report that is built carries the run's timestamp label,
    the number of rows of each list in its heading (the length of the
    list, not the configured top-N), the two market blocks with NSE
    before BSE, and the attribution line. *)
Theorem build_email_html_contents (lib : pylib) (ist_time_str : string)
    (nse_rows bse_rows : list row) (doc : string) :
  build_email_html lib ist_time_str nse_rows bse_rows = Ok doc →
  contains doc ("<em>Run at " +:+ ist_time_str +:+ " IST</em>")
  ∧ contains doc ("<strong>Top " +:+ str_of_Z (Z.of_nat (length nse_rows))
                  +:+ " Most Active (by volume) — NSE</strong>")
  ∧ contains doc ("<strong>Top " +:+ str_of_Z (Z.of_nat (length bse_rows))
                  +:+ " Most Active (by volume) — BSE</strong>")
  ∧ contains doc "Source: Yahoo Finance Screener (unofficial)."
  ∧ ∃ nse_tbl bse_tbl a b c,
      tbl lib nse_rows "NSE (.NS)" = Ok nse_tbl
      ∧ tbl lib bse_rows "BSE (.BO)" = Ok bse_tbl
      ∧ doc = a +:+ nse_tbl +:+ b +:+ bse_tbl +:+ c.
Proof.
  unfold build_email_html. intros (x & Hx & H)%bind_Ok_inv.
  apply bind_Ok_inv in H as (y & Hy & H). injection H as <-.
  unfold email_frame, contains.
  split; [|split; [|split; [|split]]].
  - exists (nl +:+ "    <html><body>" +:+ nl
            +:+ "      <p><strong>Top " +:+ str_of_Z (Z.of_nat (length nse_rows))
            +:+ " Most Active (by volume) — NSE</strong><br/>" +:+ nl +:+ "      ").
    eexists. rewrite !str_app_assoc. reflexivity.
  - exists (nl +:+ "    <html><body>" +:+ nl +:+ "      <p>").
    eexists. rewrite !str_app_assoc. reflexivity.
  - exists (nl +:+ "    <html><body>" +:+ nl
            +:+ "      <p><strong>Top " +:+ str_of_Z (Z.of_nat (length nse_rows))
            +:+ " Most Active (by volume) — NSE</strong><br/>" +:+ nl
            +:+ "      <em>Run at " +:+ ist_time_str +:+ " IST</em></p>" +:+ nl
            +:+ "      " +:+ x +:+ nl
            +:+ "      <br/>" +:+ nl +:+ "      <p>").
    eexists. rewrite !str_app_assoc. reflexivity.
  - exists (nl +:+ "    <html><body>" +:+ nl
            +:+ "      <p><strong>Top " +:+ str_of_Z (Z.of_nat (length nse_rows))
            +:+ " Most Active (by volume) — NSE</strong><br/>" +:+ nl
            +:+ "      <em>Run at " +:+ ist_time_str +:+ " IST</em></p>" +:+ nl
            +:+ "      " +:+ x +:+ nl
            +:+ "      <br/>" +:+ nl
            +:+ "      <p><strong>Top " +:+ str_of_Z (Z.of_nat (length bse_rows))
            +:+ " Most Active (by volume) — BSE</strong></p>" +:+ nl
            +:+ "      " +:+ y +:+ nl
            +:+ "      <p style=" +:+ dq +:+ "color:#666;font-size:12px;" +:+ dq +:+ ">").
    eexists. rewrite !str_app_assoc. reflexivity.
  - exists x, y.
    exists (nl +:+ "    <html><body>" +:+ nl
            +:+ "      <p><strong>Top " +:+ str_of_Z (Z.of_nat (length nse_rows))
            +:+ " Most Active (by volume) — NSE</strong><br/>" +:+ nl
            +:+ "      <em>Run at " +:+ ist_time_str +:+ " IST</em></p>" +:+ nl
            +:+ "      ").
    exists (nl +:+ "      <br/>" +:+ nl
            +:+ "      <p><strong>Top " +:+ str_of_Z (Z.of_nat (length bse_rows))
            +:+ " Most Active (by volume) — BSE</strong></p>" +:+ nl
            +:+ "      ").
    eexists. split; [done|]. split; [done|]. rewrite !str_app_assoc. reflexivity.
Qed.

Lemma build_email_html_contents_witness :
  contains sample_html ("<em>Run at " +:+ "2024-01-03 10:00" +:+ " IST</em>")
  ∧ contains sample_html "Source: Yahoo Finance Screener (unofficial).".
Proof.
  assert (H : build_email_html sample_lib "2024-01-03 10:00"
                [mk_row "INFY.NS" (JStr "INFY.NS") 900 JNull JNull JNull;
                 mk_row "TCS.NS" (JStr "TCS.NS") 500 JNull JNull JNull;
                 mk_row "SBIN.NS" (JStr "SBIN.NS") 500 JNull JNull JNull]
                [mk_row "X.BO" (JStr "X.BO") 100 JNull JNull JNull]
              = Ok sample_html)
    by (vm_compute; reflexivity).
  pose proof (build_email_html_contents _ _ _ _ _ H) as (H1 & _ & _ & H4 & _).
  exact (conj H1 H4).
Defined.

(** ** Orchestration *)

Lemma m_bind_Ok {A B} (a : A) (tr : list event) (f : A → M B) :
  m_bind (Ok a, tr) f = ((f a).1, tr ++ (f a).2).
Proof. unfold m_bind. by destruct (f a). Qed.

Lemma m_bind_Raise {A B} (e : exn) (tr : list event) (f : A → M B) :
  m_bind (Raise e, tr) f = (Raise e, tr).
Proof. reflexivity. Qed.

Lemma fetch_first_returns (server : Z → http_outcome) (size timeout : Z) (quotes : json) :
  attempt_returns (server 1) quotes →
  yahoo_screener_most_active_india server size 3 timeout
  = (quotes, [EvPost SCREENER_URL size timeout]).
Proof.
  intros Hret. unfold yahoo_screener_most_active_india.
  change (py_range 1 (3 + 1)) with [1; 2; 3]. simpl.
  by rewrite (try_attempt_returns _ _ Hret).
Qed.

(** Past the gate, with quotes, rankings and report at hand, what is left
    of the run is the mail. *)
Lemma main_reaches_mail (lib : pylib) (cfg : config) (w : world) (ist_dt : datetime)
    (html : string) :
  reaches_mail lib cfg w ist_dt html →
  main lib cfg w
  = ((send_email cfg (relay w) (subject_of cfg (strftime lib ist_dt)) html).1,
     EvPost SCREENER_URL (Z.max (TOP_N cfg * 6) 60) 15 :: EvRender
       :: (send_email cfg (relay w) (subject_of cfg (strftime lib ist_dt)) html).2).
Proof.
  intros (Hnow & Hgate & qs & nse & bse & Hret & Hqs & Hnse & Hbse & Hhtml).
  unfold main. rewrite Hnow, m_bind_lift_Ok.
  change (is_market_open_ist (utcnow w) (Some ist_dt)) with (Ok (market_open ist_dt)).
  rewrite m_bind_lift_Ok, Hgate.
  rewrite (fetch_first_returns _ _ _ _ Hret), m_bind_Ok.
  assert (truthy (JList qs) = true) as -> by (by destruct qs).
  simpl negb. cbv iota. simpl py_iter.
  rewrite m_bind_lift_Ok, Hnse, m_bind_lift_Ok, Hbse, m_bind_lift_Ok.
  unfold emit. rewrite m_bind_Ok, Hhtml, m_bind_lift_Ok. reflexivity.
Qed.

(** X19. A complete run: past the gate, with the first request answered
    by a non-empty list of quotes and a complete mail configuration, and
    with a relay that accepts the session, [main] returns normally after
    one request, one render and one mail session that sends the report
    once, from the configured sender to all recipients, under the subject
    line with top-N and the timestamp. *)
Theorem main_sends_report (lib : pylib) (cfg : config) (w : world) (ist_dt : datetime)
    (html : string) :
  reaches_mail lib cfg w ist_dt html →
  config_complete cfg = true → relay w = Relay_ok →
  main lib cfg w
  = (Ok tt,
     [EvPost SCREENER_URL (Z.max (TOP_N cfg * 6) 60) 15; EvRender;
      EvSmtpConnect (SMTP_HOST cfg) (SMTP_PORT cfg); EvStartTls;
      EvLogin (SMTP_USER cfg) (SMTP_PASS cfg);
      EvSendmail (FROM_EMAIL cfg) (TO_EMAILS cfg)
        (subject_of cfg (strftime lib ist_dt)) html;
      EvSmtpQuit; EvLog INFO "Email sent to: %s"]).
Proof.
  intros Hreach Hcfg Hrelay. rewrite (main_reaches_mail _ _ _ _ _ Hreach).
  unfold send_email. rewrite Hcfg, Hrelay. reflexivity.
Qed.

Lemma sample_reaches_mail (relay : smtp_relay) (cfg : config) :
  TOP_N cfg = 10 → ENFORCE_MARKET_HOURS cfg = true →
  reaches_mail sample_lib cfg (sample_world relay) (datetime_of 2024 1 3 10 0 0 0)
    sample_html.
Proof.
  intros Htop Henf. unfold reaches_mail. rewrite Htop, Henf.
  split; [vm_compute; reflexivity|]. split; [vm_compute; reflexivity|].
  eexists sample_quotes, _, _. split.
  { eexists _, _. split; [reflexivity|]. vm_compute. reflexivity. }
  split; [discriminate|]. split; [vm_compute; reflexivity|].
  split; [vm_compute; reflexivity|]. vm_compute. reflexivity.
Qed.

Lemma main_sends_report_witness :
  main sample_lib sample_cfg (sample_world Relay_ok)
  = (Ok tt,
     [EvPost SCREENER_URL 60 15; EvRender;
      EvSmtpConnect "smtp.example.org" 587; EvStartTls; EvLogin "bot" "secret";
      EvSendmail "bot" ["desk@example.org"]
        "India Most-Active (Vol) — NSE/BSE Top 10 @ 2024-01-03 10:00 IST" sample_html;
      EvSmtpQuit; EvLog INFO "Email sent to: %s"]).
Proof.
  apply (main_sends_report sample_lib sample_cfg (sample_world Relay_ok)
           (datetime_of 2024 1 3 10 0 0 0) sample_html).
  - apply sample_reaches_mail; reflexivity.
  - vm_compute. reflexivity.
  - reflexivity.
Defined.

(** X20. The mail configuration is checked last: with a field of it
    missing, a run that gets quotes still makes its request to the
    screener and renders the report, and only then raises the
    configuration error, without opening a mail session. *)
Theorem main_config_checked_after_fetch (lib : pylib) (cfg : config) (w : world)
    (ist_dt : datetime) (html : string) :
  reaches_mail lib cfg w ist_dt html →
  config_missing cfg →
  main lib cfg w
  = (Raise (RuntimeError CONFIG_MISSING),
     [EvPost SCREENER_URL (Z.max (TOP_N cfg * 6) 60) 15; EvRender]).
Proof.
  intros Hreach Hcfg. rewrite (main_reaches_mail _ _ _ _ _ Hreach).
  unfold send_email. by rewrite (config_missing_incomplete cfg Hcfg).
Qed.

Lemma main_config_checked_after_fetch_witness :
  main sample_lib (config_of_env ∅ 587 [] 10 true "INFO") (sample_world Relay_ok)
  = (Raise (RuntimeError CONFIG_MISSING), [EvPost SCREENER_URL 60 15; EvRender]).
Proof.
  apply (main_config_checked_after_fetch sample_lib
           (config_of_env ∅ 587 [] 10 true "INFO") (sample_world Relay_ok)
           (datetime_of 2024 1 3 10 0 0 0) sample_html).
  - apply sample_reaches_mail; reflexivity.
  - left. reflexivity.
Defined.

(** X21. A failed mail session fails the run: when the relay refuses any
    step, [main] raises that error after the request, the render and the
    attempt to connect; it does not retry, sends nothing twice and does
    not log a success. *)
Theorem main_mail_failure_propagates (lib : pylib) (cfg : config) (w : world)
    (ist_dt : datetime) (html : string) :
  reaches_mail lib cfg w ist_dt html →
  config_complete cfg = true → relay w ≠ Relay_ok →
  ∃ what tr,
    main lib cfg w
    = (Raise (OtherError what),
       EvPost SCREENER_URL (Z.max (TOP_N cfg * 6) 60) 15 :: EvRender
         :: EvSmtpConnect (SMTP_HOST cfg) (SMTP_PORT cfg) :: tr)
    ∧ Forall (λ ev, ∀ h p, ev ≠ EvSmtpConnect h p) tr
    ∧ ¬ (EvLog INFO "Email sent to: %s" ∈ tr)
    ∧ (length (filter (λ ev, is_sendmail ev = true) tr) ≤ 1)%nat.
Proof.
  intros Hreach Hcfg Hrelay. rewrite (main_reaches_mail _ _ _ _ _ Hreach).
  unfold send_email. rewrite Hcfg. simpl.
  destruct (relay w); [done|..]; simpl; eexists _, _;
    (split; [reflexivity|]);
    (split; [by repeat constructor|]);
    (split; [intros H; refute_elem H | vm_compute; lia]).
Qed.

Lemma main_mail_failure_propagates_witness :
  ∃ what tr,
    main sample_lib sample_cfg (sample_world Login_fails)
    = (Raise (OtherError what),
       EvPost SCREENER_URL (Z.max (TOP_N sample_cfg * 6) 60) 15 :: EvRender
         :: EvSmtpConnect (SMTP_HOST sample_cfg) (SMTP_PORT sample_cfg) :: tr)
    ∧ Forall (λ ev, ∀ h p, ev ≠ EvSmtpConnect h p) tr
    ∧ ¬ (EvLog INFO "Email sent to: %s" ∈ tr)
    ∧ (length (filter (λ ev, is_sendmail ev = true) tr) ≤ 1)%nat.
Proof.
  apply (main_mail_failure_propagates sample_lib sample_cfg (sample_world Login_fails)
           (datetime_of 2024 1 3 10 0 0 0) sample_html).
  - apply sample_reaches_mail; reflexivity.
  - vm_compute. reflexivity.
  - discriminate.
Defined.

Lemma send_email_trace_facts (cfg : config) (relay : smtp_relay) (subject html : string) :
  posts_of (send_email cfg relay subject html).2 = []
  ∧ Forall (λ ev, is_render ev = false) (send_email cfg relay subject html).2
  ∧ (length (filter (λ ev, is_sendmail ev = true) (send_email cfg relay subject html).2)
     ≤ 1)%nat.
Proof.
  unfold send_email. destruct (config_complete cfg); destruct relay; simpl;
    (split; [reflexivity|]); (split; [by repeat constructor | vm_compute; lia]).
Qed.

Lemma no_mail_no_sendmail (tr : list event) :
  Forall (λ ev, is_render ev = false ∧ is_mail_event ev = false) tr →
  filter (λ ev, is_sendmail ev = true) tr = [].
Proof.
  induction 1 as [|ev tr [_ Hev] _ IH]; [done|].
  rewrite filter_cons, IH. destruct ev; simpl in *; try discriminate; done.
Qed.

(** The runs of [main]: it stops before the fetch, or its trace is the
    fetcher's followed by a warning, by nothing or a render when a later
    stage raises, or by the render and the mail session. *)
Lemma main_trace_cases (lib : pylib) (cfg : config) (w : world) :
  (∃ e, main lib cfg w = (Raise e, []))
  ∨ main lib cfg w
    = (Ok tt, [EvLog INFO "Outside Indian market hours. Skipping send. Now IST: %s"])
  ∨ ∃ r tail,
      main lib cfg w
      = (r, (yahoo_screener_most_active_india (server w)
               (Z.max (TOP_N cfg * 6) 60) 3 15).2 ++ tail)
      ∧ ((r = Ok tt ∧ tail = [EvLog WARNING "No quotes fetched; aborting email."])
         ∨ (truthy (yahoo_screener_most_active_india (server w)
                      (Z.max (TOP_N cfg * 6) 60) 3 15).1 = true
            ∧ ((∃ e, r = Raise e ∧ (tail = [] ∨ tail = [EvRender]))
               ∨ ∃ subject html,
                   r = (send_email cfg (relay w) subject html).1
                   ∧ tail = EvRender :: (send_email cfg (relay w) subject html).2))).
Proof.
  unfold main. destruct (now_ist_dt (utcnow w)) as [ist_dt|e].
  2: { left. exists e. reflexivity. }
  right. rewrite m_bind_lift_Ok.
  change (is_market_open_ist (utcnow w) (Some ist_dt)) with (Ok (market_open ist_dt)).
  rewrite m_bind_lift_Ok.
  destruct (ENFORCE_MARKET_HOURS cfg && negb (market_open ist_dt)); [by left|].
  right.
  destruct (yahoo_screener_most_active_india (server w) (Z.max (TOP_N cfg * 6) 60) 3 15)
    as [q ftr] eqn:Hf.
  rewrite m_bind_Ok.
  destruct (truthy q) eqn:Tq; simpl negb; cbv iota.
  2: { eexists _, _. split; [reflexivity|]. left. done. }
  destruct (py_iter q) as [qs|e].
  2: { rewrite m_bind_lift_Raise. eexists _, _. split; [reflexivity|].
       right. split; [done|]. left. eexists. split; [reflexivity|]. by left. }
  rewrite m_bind_lift_Ok.
  destruct (select_top_by_exchange qs ".NS" (TOP_N cfg)) as [nse|e].
  2: { rewrite m_bind_lift_Raise. eexists _, _. split; [reflexivity|].
       right. split; [done|]. left. eexists. split; [reflexivity|]. by left. }
  rewrite m_bind_lift_Ok.
  destruct (select_top_by_exchange qs ".BO" (TOP_N cfg)) as [bse|e].
  2: { rewrite m_bind_lift_Raise. eexists _, _. split; [reflexivity|].
       right. split; [done|]. left. eexists. split; [reflexivity|]. by left. }
  rewrite m_bind_lift_Ok. unfold emit. rewrite m_bind_Ok.
  destruct (build_email_html lib (strftime lib ist_dt) nse bse) as [html|e].
  2: { rewrite m_bind_lift_Raise. eexists _, _. split; [reflexivity|].
       right. split; [done|]. left. eexists. split; [reflexivity|]. by right. }
  rewrite m_bind_lift_Ok. eexists _, _. split; [reflexivity|].
  right. split; [done|]. right. eexists _, _. split; reflexivity.
Qed.

(** X22. Whatever the world does, [main] makes at most three requests,
    each to the screener with timeout 15 and for max(6 × top-N, 60)
    records, so for at least 60 and at least six times top-N. *)
Theorem main_requests (lib : pylib) (cfg : config) (w : world) :
  Forall (λ p, p = (SCREENER_URL, Z.max (TOP_N cfg * 6) 60, 15))
    (posts_of (main lib cfg w).2)
  ∧ (length (posts_of (main lib cfg w).2) ≤ 3)%nat
  ∧ 60 ≤ Z.max (TOP_N cfg * 6) 60 ∧ 6 * TOP_N cfg ≤ Z.max (TOP_N cfg * 6) 60.
Proof.
  destruct (fetch_loop_shape (server w) (Z.max (TOP_N cfg * 6) 60) 15 (py_range 1 (3 + 1)))
    as (H1 & H2 & _).
  change (length (py_range 1 (3 + 1))) with 3%nat in H1.
  fold (yahoo_screener_most_active_india (server w) (Z.max (TOP_N cfg * 6) 60) 3 15)
    in H1, H2.
  split; [|split; [|lia]].
  - destruct (main_trace_cases lib cfg w) as [[e ->]|[->|(r & tail & -> & Hcase)]];
      [constructor | constructor |].
    simpl. rewrite posts_of_app.
    destruct Hcase as [[_ ->]|[_ [(e & _ & [-> | ->])|(subject & html & _ & ->)]]];
      rewrite ?app_nil_r; try done.
    change (posts_of (EvRender :: ?l)) with (posts_of l).
    rewrite (proj1 (send_email_trace_facts _ _ _ _)). by rewrite app_nil_r.
  - destruct (main_trace_cases lib cfg w) as [[e ->]|[->|(r & tail & -> & Hcase)]];
      [simpl; lia | simpl; lia |].
    simpl. rewrite posts_of_app.
    destruct Hcase as [[_ ->]|[_ [(e & _ & [-> | ->])|(subject & html & _ & ->)]]];
      rewrite ?app_nil_r; try done.
    change (posts_of (EvRender :: ?l)) with (posts_of l).
    rewrite (proj1 (send_email_trace_facts _ _ _ _)). by rewrite app_nil_r.
Qed.

Lemma mail_event_split (ftr str tr1 tr2 : list event) (ev : event) :
  Forall (λ ev, is_render ev = false ∧ is_mail_event ev = false) ftr →
  tr1 ++ ev :: tr2 = ftr ++ EvRender :: str → is_mail_event ev = true →
  ∃ k, tr1 = ftr ++ EvRender :: k.
Proof.
  intros Hftr. revert tr1. induction Hftr as [|f ftr [_ Hf] _ IH]; intros tr1 Heq Hev.
  - destruct tr1 as [|a tr1]; simpl in Heq.
    + injection Heq as -> _. discriminate.
    + injection Heq as -> Heq. by exists tr1.
  - destruct tr1 as [|a tr1]; simpl in Heq.
    + injection Heq as -> _. congruence.
    + injection Heq as -> Heq. destruct (IH tr1 Heq Hev) as [k ->]. by exists k.
Qed.

Lemma no_mail_elem (tr tr1 tr2 : list event) (ev : event) :
  Forall (λ ev, is_mail_event ev = false) tr → tr = tr1 ++ ev :: tr2 →
  is_mail_event ev = true → False.
Proof.
  intros Hall -> Hev. apply Forall_app in Hall as [_ Hall].
  apply Forall_cons in Hall as [Hev' _]. congruence.
Qed.

Lemma no_render_filter (tr : list event) :
  Forall (λ ev, is_render ev = false) tr →
  filter (λ ev, is_render ev = true) tr = [].
Proof.
  induction 1 as [|ev tr Hev _ IH]; [done|].
  rewrite filter_cons, IH. by destruct (decide (is_render ev = true)); [congruence|].
Qed.

(** X23. Mail is the last stage of every run: whatever the world does, a
    mail-session event in the trace of [main] comes after the render and
    after at least one request to the screener, and a run renders at most
    once and hands over at most one message. *)
Theorem main_mail_after_render (lib : pylib) (cfg : config) (w : world) :
  (∀ tr1 ev tr2,
     (main lib cfg w).2 = tr1 ++ ev :: tr2 → is_mail_event ev = true →
     EvRender ∈ tr1 ∧ posts_of tr1 ≠ [])
  ∧ (length (filter (λ ev, is_sendmail ev = true) (main lib cfg w).2) ≤ 1)%nat
  ∧ (length (filter (λ ev, is_render ev = true) (main lib cfg w).2) ≤ 1)%nat.
Proof.
  destruct (fetch_loop_shape (server w) (Z.max (TOP_N cfg * 6) 60) 15 (py_range 1 (3 + 1)))
    as (_ & _ & _ & Hftr & _ & Hposts).
  fold (yahoo_screener_most_active_india (server w) (Z.max (TOP_N cfg * 6) 60) 3 15)
    in Hftr, Hposts.
  set (f := yahoo_screener_most_active_india (server w) (Z.max (TOP_N cfg * 6) 60) 3 15)
    in *.
  assert (Hnm : Forall (λ ev, is_mail_event ev = false) f.2).
  { eapply Forall_impl; [exact Hftr|]. by intros ev [_ ?]. }
  assert (Hnr : Forall (λ ev, is_render ev = false) f.2).
  { eapply Forall_impl; [exact Hftr|]. by intros ev [? _]. }
  destruct (main_trace_cases lib cfg w) as [[e ->]|[->|(r & tail & -> & Hcase)]].
  - simpl. split; [|split; simpl; lia]. intros [|? ?] ev tr2 Heq; discriminate.
  - simpl. split; [|split; vm_compute; lia]. intros tr1 ev tr2 Heq Hev. exfalso.
    eapply (no_mail_elem _ tr1 tr2 ev); [|exact Heq|exact Hev]. by repeat constructor.
  - fold f. simpl.
    rewrite !filter_app, !length_app, (no_mail_no_sendmail _ Hftr), (no_render_filter _ Hnr).
    destruct Hcase as [[_ ->]|[Tq [(e & _ & [-> | ->])|(subject & html & _ & ->)]]].
    + split; [|split; vm_compute; lia]. intros tr1 ev tr2 Heq Hev. exfalso.
      eapply (no_mail_elem _ tr1 tr2 ev); [|exact Heq|exact Hev].
      apply Forall_app. split; [done | by repeat constructor].
    + split; [|split; vm_compute; lia]. intros tr1 ev tr2 Heq Hev. exfalso.
      eapply (no_mail_elem _ tr1 tr2 ev); [|exact Heq|exact Hev].
      apply Forall_app. split; [done | constructor].
    + split; [|split; vm_compute; lia]. intros tr1 ev tr2 Heq Hev. exfalso.
      eapply (no_mail_elem _ tr1 tr2 ev); [|exact Heq|exact Hev].
      apply Forall_app. split; [done | by repeat constructor].
    + destruct (send_email_trace_facts cfg (relay w) subject html) as (_ & Hsr & Hone).
      split; [|split].
      * intros tr1 ev tr2 Heq Hev. symmetry in Heq.
        destruct (mail_event_split _ _ _ _ _ Hftr Heq Hev) as [k ->].
        split.
        -- apply elem_of_app. right. left.
        -- rewrite posts_of_app. intros [Hnil _]%app_eq_nil. by apply Hposts.
      * rewrite filter_cons.
        destruct (decide (is_sendmail EvRender = true)) as [Hd|_]; [discriminate|].
        simpl. lia.
      * rewrite filter_cons, (no_render_filter _ Hsr). simpl. lia.
Qed.

Lemma select_top_not_dict_head (s : string) (rest : list json) (suffix : string)
    (top_n : Z) :
  select_top_by_exchange (JStr s :: rest) suffix top_n = Raise AttributeError.
Proof. reflexivity. Qed.

(** X24. Quotes that are not a list stop the run before the render: when
    the first answer carries, in the place of the quotes, a truthy value
    that is not a list (an object, a string, a number), [main] raises
    [TypeError] or [AttributeError] right after its one request; nothing
    is rendered and no mail session is opened. *)
Theorem main_rejects_non_list_quotes (lib : pylib) (cfg : config) (w : world)
    (ist_dt : datetime) (quotes : json) :
  now_ist_dt (utcnow w) = Ok ist_dt →
  ENFORCE_MARKET_HOURS cfg && negb (market_open ist_dt) = false →
  attempt_returns (server w 1) quotes →
  (∀ l, quotes ≠ JList l) →
  ∃ e, main lib cfg w
       = (Raise e, [EvPost SCREENER_URL (Z.max (TOP_N cfg * 6) 60) 15])
       ∧ (e = TypeError ∨ e = AttributeError).
Proof.
  intros Hnow Hgate Hret Hnl.
  assert (Tq : truthy quotes = true).
  { destruct Hret as (text & data & _ & Hx).
    destruct (extract_quotes_shape _ _ Hx) as [-> | ?]; [by destruct (Hnl [])|done]. }
  unfold main. rewrite Hnow, m_bind_lift_Ok.
  change (is_market_open_ist (utcnow w) (Some ist_dt)) with (Ok (market_open ist_dt)).
  rewrite m_bind_lift_Ok, Hgate.
  rewrite (fetch_first_returns _ _ _ _ Hret), m_bind_Ok, Tq.
  simpl negb. cbv iota.
  destruct quotes as [|b|z|f|s|l|m]; simpl in Tq; try discriminate.
  - exists TypeError. split; [reflexivity | by left].
  - exists TypeError. split; [reflexivity | by left].
  - exists TypeError. split; [reflexivity | by left].
  - destruct s as [|c s]; [discriminate|]. exists AttributeError.
    split; [reflexivity | by right].
  - by destruct (Hnl l).
  - exists AttributeError. split; [|by right].
    simpl py_iter. destruct (map_to_list m) as [|kv kvs] eqn:Hm.
    { apply map_to_list_empty_iff in Hm. subst m.
      by rewrite bool_decide_eq_true_2 in Tq. }
    reflexivity.
Qed.

Lemma main_rejects_non_list_quotes_witness :
  ∃ e, main sample_lib sample_cfg
         (mk_world (datetime_of 2024 1 3 4 30 0 0)
            (λ _, Response 200 ""
                    (Ok (quote_of
                           [("finance",
                             quote_of [("result",
                                        JList [quote_of [("quotes", JStr "none")]])])])))
            Relay_ok)
       = (Raise e, [EvPost SCREENER_URL (Z.max (TOP_N sample_cfg * 6) 60) 15])
       ∧ (e = TypeError ∨ e = AttributeError).
Proof.
  apply (main_rejects_non_list_quotes sample_lib sample_cfg _
           (datetime_of 2024 1 3 10 0 0 0) (JStr "none")).
  - vm_compute. reflexivity.
  - vm_compute. reflexivity.
  - eexists _, _. split; [reflexivity|]. vm_compute. reflexivity.
  - discriminate.
Defined.

Lemma main_mail_after_render_witness :
  EvRender ∈ [EvPost SCREENER_URL 60 15; EvRender; EvSmtpConnect "smtp.example.org" 587]
  ∧ posts_of [EvPost SCREENER_URL 60 15; EvRender; EvSmtpConnect "smtp.example.org" 587]
    ≠ [].
Proof.
  apply (proj1 (main_mail_after_render sample_lib sample_cfg (sample_world Relay_ok))
           [EvPost SCREENER_URL 60 15; EvRender; EvSmtpConnect "smtp.example.org" 587]
           EvStartTls
           [EvLogin "bot" "secret";
            EvSendmail "bot" ["desk@example.org"]
              "India Most-Active (Vol) — NSE/BSE Top 10 @ 2024-01-03 10:00 IST"
              sample_html;
            EvSmtpQuit; EvLog INFO "Email sent to: %s"]).
  - vm_compute. reflexivity.
  - reflexivity.
Defined.

Lemma fetch_starts_with_post (server : Z → http_outcome) (size timeout : Z) :
  ∃ tr, (yahoo_screener_most_active_india server size 3 timeout).2
        = EvPost SCREENER_URL size timeout :: tr.
Proof.
  unfold yahoo_screener_most_active_india.
  change (py_range 1 (3 + 1)) with [1; 2; 3]. simpl.
  destruct (try_attempt (server 1)) as [[q|] logs]; [by eexists|].
  destruct (try_attempt (server 2)) as [[q|] logs2]; [by eexists|].
  destruct (try_attempt (server 3)) as [[q|] logs3]; by eexists.
Qed.

(** X25. When the run fetches: once the local time is computed, [main]
    begins with a request to the screener exactly when enforcement is off
    or the gate is open at that local time; with enforcement off it does
    so at any time, weekends included. *)
Theorem main_fetches_iff_gate (lib : pylib) (cfg : config) (w : world)
    (ist_dt : datetime) :
  now_ist_dt (utcnow w) = Ok ist_dt →
  (∃ tr, (main lib cfg w).2
         = EvPost SCREENER_URL (Z.max (TOP_N cfg * 6) 60) 15 :: tr)
  ↔ ENFORCE_MARKET_HOURS cfg = false ∨ market_open ist_dt = true.
Proof.
  intros Hnow. unfold main. rewrite Hnow, m_bind_lift_Ok.
  change (is_market_open_ist (utcnow w) (Some ist_dt)) with (Ok (market_open ist_dt)).
  rewrite m_bind_lift_Ok.
  destruct (ENFORCE_MARKET_HOURS cfg) eqn:Henf, (market_open ist_dt) eqn:Hopen; simpl andb;
    cbv iota.
  2: { split; [intros [tr Htr]; discriminate | intros [?|?]; discriminate]. }
  all: split; [intros _; by (left + right)|]; intros _.
  all: destruct (fetch_starts_with_post (server w) (Z.max (TOP_N cfg * 6) 60) 15)
         as [ftr Hftr].
  all: destruct (yahoo_screener_most_active_india (server w)
                   (Z.max (TOP_N cfg * 6) 60) 3 15) as [q tr0]; simpl in Hftr; subst tr0.
  all: rewrite m_bind_Ok; simpl; by eexists.
Qed.

Lemma main_fetches_iff_gate_witness :
  ∃ tr, (main sample_lib (config_of_env ∅ 587 [] 10 false "INFO")
           (mk_world (datetime_of 2024 1 6 4 30 0 0) (λ _, Transport_error) Relay_ok)).2
        = EvPost SCREENER_URL
            (Z.max (TOP_N (config_of_env ∅ 587 [] 10 false "INFO") * 6) 60) 15 :: tr.
Proof.
  apply (proj2 (main_fetches_iff_gate sample_lib (config_of_env ∅ 587 [] 10 false "INFO")
                  (mk_world (datetime_of 2024 1 6 4 30 0 0) (λ _, Transport_error) Relay_ok)
                  (datetime_of 2024 1 6 10 0 0 0) eq_refl)).
  left. reflexivity.
Defined.

(** X26. An answer without quotes ends the run at once: when the first
    request is answered with status 200 and a body whose quotes are
    missing, null or empty, [main] does not retry; it logs the warning
    and returns normally after that one request, with no render and no
    mail session. *)
Theorem main_empty_answer (lib : pylib) (cfg : config) (w : world) (ist_dt : datetime) :
  now_ist_dt (utcnow w) = Ok ist_dt →
  ENFORCE_MARKET_HOURS cfg && negb (market_open ist_dt) = false →
  attempt_returns (server w 1) (JList []) →
  main lib cfg w
  = (Ok tt, [EvPost SCREENER_URL (Z.max (TOP_N cfg * 6) 60) 15;
             EvLog WARNING "No quotes fetched; aborting email."]).
Proof.
  intros Hnow Hgate Hret. unfold main. rewrite Hnow, m_bind_lift_Ok.
  change (is_market_open_ist (utcnow w) (Some ist_dt)) with (Ok (market_open ist_dt)).
  rewrite m_bind_lift_Ok, Hgate.
  rewrite (fetch_first_returns _ _ _ _ Hret), m_bind_Ok. reflexivity.
Qed.

Lemma main_empty_answer_witness :
  main sample_lib sample_cfg
    (mk_world (datetime_of 2024 1 3 4 30 0 0)
       (λ _, Response 200 "{}" (Ok (quote_of []))) Relay_ok)
  = (Ok tt, [EvPost SCREENER_URL (Z.max (TOP_N sample_cfg * 6) 60) 15;
             EvLog WARNING "No quotes fetched; aborting email."]).
Proof.
  apply (main_empty_answer sample_lib sample_cfg _ (datetime_of 2024 1 3 10 0 0 0)).
  - vm_compute. reflexivity.
  - vm_compute. reflexivity.
  - eexists _, _. split; [reflexivity|]. vm_compute. reflexivity.
Defined.
